(** * BlocklistWrapper: build coordination and trie assembly

    A shallow embedding of [src/plugins/blocklist-wrapper/main.js]: the
    asset fetcher [fileFetch], the part assembler [makeTd], the build
    sequence [downloadBuildBlocklist] / [initBlocklistConstruction] and the
    coordinator [RethinkModule], run by a cooperative scheduler that
    switches tasks only at an [await]. *)

From Stdlib Require Import ZArith String Ascii List Lia DecimalString DecimalPos DecimalZ.
From stdpp Require Import base option list gmap strings.
From Equations Require Import Equations.

Open Scope Z_scope.

(** ** Strings and numbers as the engine prints them *)

(** The double quote character (code 34). *)
Definition dquote : ascii := ascii_of_nat 34.
(** The backslash character (code 92). *)
Definition backslash : ascii := ascii_of_nat 92.

(** Number to string conversion of an integral Number, as in
    ["blocklist-filter timeout " + totalWaitms]. *)
Definition toString (z : Z) : string := NilZero.string_of_int (Z.to_int z).

(** [i.toLocaleString("en-US", {minimumIntegerDigits: 2, useGrouping: false})]
    for an integral [i]: the decimal digits, padded on the left with zeros
    up to two integer digits, no grouping separator. *)
Definition toLocaleString (i : Z) : string :=
  let digits := toString (Z.abs i) in
  let padded := String.string_of_list_ascii
                  (List.repeat "0"%char (2 - String.length digits)%nat) +:+ digits in
  if i <? 0 then String "-" padded else padded.

(** [s.includes(pat)]: [pat] occurs in [s] as a contiguous substring. *)
Fixpoint includes (pat s : string) : bool :=
  String.prefix pat s ||
  match s with
  | EmptyString => false
  | String _ s' => includes pat s'
  end.

(** Lower-case hexadecimal digit of a value below 16. *)
Definition hexDigit (n : nat) : ascii :=
  nth n (list_ascii_of_string "0123456789abcdef") "0"%char.

(** One code unit inside a JSON string literal (QuoteJSONString of
    ECMA-262): the quote and the backslash are escaped with a backslash,
    the control characters below 0x20 by their short escape or [\u00XX],
    everything else is copied. *)
Definition quoteJSONChar (c : ascii) : string :=
  let n := nat_of_ascii c in
  if (n =? 34)%nat then String backslash (String dquote EmptyString)
  else if (n =? 92)%nat then String backslash (String backslash EmptyString)
  else if (n =? 8)%nat then String backslash "b"
  else if (n =? 12)%nat then String backslash "f"
  else if (n =? 10)%nat then String backslash "n"
  else if (n =? 13)%nat then String backslash "r"
  else if (n =? 9)%nat then String backslash "t"
  else if (n <? 32)%nat then
    String backslash ("u00" +:+ String (hexDigit (n / 16)) (String (hexDigit (n mod 16)) EmptyString))
  else String c EmptyString.

Fixpoint quoteJSONBody (s : string) : string :=
  match s with
  | EmptyString => EmptyString
  | String c s' => quoteJSONChar c +:+ quoteJSONBody s'
  end.

(** [JSON.stringify(s)] for a string [s]. *)
Definition quoteJSONString (s : string) : string :=
  String dquote (quoteJSONBody s +:+ String dquote EmptyString).

(** A character that [JSON.stringify] copies unchanged. *)
Definition plainChar (c : ascii) : bool :=
  let n := nat_of_ascii c in
  negb (n =? 34)%nat && negb (n =? 92)%nat && negb (n <? 32)%nat.

Fixpoint plainString (s : string) : bool :=
  match s with
  | EmptyString => true
  | String c s' => plainChar c && plainString s'
  end.

(** ** Values thrown, promises, the network *)

(** An [ArrayBuffer]. *)
Definition Buffer := list Byte.byte.

(** A thrown [Error], by its diagnostic message. *)
Record JsError := mkError { message : string }.

(** A promise that settles: [settledAt] is the instant it settles at,
    [outcome] the rejection reason ([inl]) or the fulfilment value ([inr]). *)
Record Promise (A : Type) := mkPromise {
  settledAt : nat;
  outcome : JsError + A
}.
Arguments mkPromise {A} _ _.
Arguments settledAt {A} _.
Arguments outcome {A} _.

Definition rejected {A} (p : Promise A) : bool :=
  match outcome p with inl _ => true | inr _ => false end.

(** [Promise.all(ps)]: fulfilled with all the values, in the order of [ps],
    once the last one is; rejected with the reason of the promise that
    rejects first in time (of two that reject at the same instant, which
    the event loop never produces, the one listed first). *)
Fixpoint Promise_all {A} (ps : list (Promise A)) : Promise (list A) :=
  match ps with
  | [] => mkPromise 0%nat (inr [])
  | p :: ps' =>
      let r := Promise_all ps' in
      match outcome p, outcome r with
      | inr a, inr l => mkPromise (Nat.max (settledAt p) (settledAt r)) (inr (a :: l))
      | inl e, inr _ => mkPromise (settledAt p) (inl e)
      | inr _, inl e' => mkPromise (settledAt r) (inl e')
      | inl e, inl e' =>
          if (settledAt p <=? settledAt r)%nat
          then mkPromise (settledAt p) (inl e)
          else mkPromise (settledAt r) (inl e')
      end
  end.

(** The values of the external filter repository are opaque to this core:
    [Json] is a parsed JSON document, [Trie] and [FrozenTrie] the two
    structures [createBlocklistFilter] (radixTrie.js) returns as [.t] and
    [.ft]; both are objects, hence truthy. *)
Class Artifacts := {
  Json : Type;
  Trie : Type;
  FrozenTrie : Type
}.

Section Fetch.
Context `{Artifacts}.

(** What [fileFetch] resolves to: [res.arrayBuffer()] or [res.json()]. *)
Inductive Payload :=
| ArrayBuffer (b : Buffer)
| JsonValue (j : Json).

(** The [Response] of the platform's [fetch]: [res.ok], the status, the
    promises [res.arrayBuffer()] and [res.json()] return, and the text
    [JSON.stringify(res)] gives for the object. That text is fixed by the
    host runtime, which decides what a Response has as own enumerable
    properties: [{}] where its attributes are accessors of the prototype,
    as the Fetch standard defines them, and an object with [status], [ok],
    [url] and more where the runtime keeps them on the instance. *)
Record FetchResponse := {
  ok : bool;
  status : Z;
  stringified : string;
  arrayBuffer : Promise Buffer;
  json : Promise Json
}.

(** The network during one build attempt: what [fetch(url)] settles to. *)
Definition Net := string -> Promise FetchResponse.

(** An async call that has run up to its first [await]: the requests it
    has issued, in order, and the promise it returned. *)
Definition Async (A : Type) : Type := list string * Promise A.

(** [JSON.stringify([url, res, "fileFetch fail"])]. *)
Definition fileFetchFailMessage (url : string) (res : FetchResponse) : string :=
  "[" +:+ quoteJSONString url +:+ "," +:+ stringified res +:+ ","
      +:+ quoteJSONString "fileFetch fail" +:+ "]".

(** [async function fileFetch(url, typ)]. *)
Definition fileFetch (net : Net) (url typ : string) : Async Payload :=
  if negb (String.eqb typ "buffer") && negb (String.eqb typ "json") then
    ([], mkPromise 0%nat (inl (mkError "Unknown conversion type at fileFetch")))
  else
    let res := net url in
    ([url],
     match outcome res with
     | inl e => mkPromise (settledAt res) (inl e)
     | inr r =>
         if negb (ok r) then
           mkPromise (settledAt res) (inl (mkError (fileFetchFailMessage url r)))
         else if String.eqb typ "buffer" then
           mkPromise (Nat.max (settledAt res) (settledAt (arrayBuffer r)))
             (match outcome (arrayBuffer r) with
              | inl e => inl e
              | inr b => inr (ArrayBuffer b)
              end)
         else
           mkPromise (Nat.max (settledAt res) (settledAt (json r)))
             (match outcome (json r) with
              | inl e => inl e
              | inr j => inr (JsonValue j)
              end)
     end).

(** Modelled from the spec: [bufutil.concat] (commons/bufutil.js) is not
    under src/. It joins the byte payloads, in the order of the list, into
    one contiguous buffer; every part [makeTd] hands it is an ArrayBuffer. *)
Definition bytesOf (p : Payload) : Buffer :=
  match p with
  | ArrayBuffer b => b
  | JsonValue _ => []
  end.

Definition bufutil_concat (tds : list Payload) : Payload :=
  ArrayBuffer (List.concat (List.map bytesOf tds)).

(** The file name of part [i]: ["/td" + i.toLocaleString(...) + ".txt"]. *)
Definition tdPartUrl (baseurl : string) (i : Z) : string :=
  baseurl +:+ "/td" +:+ toLocaleString i +:+ ".txt".

(** [async function makeTd(baseurl, n)]: joins split td parts into one. *)
Definition makeTd (net : Net) (baseurl : string) (n : Z) : Async Payload :=
  if n <=? -1 then fileFetch net (baseurl +:+ "/td.txt") "buffer"
  else
    let tdpromises :=
      List.map (fun i => fileFetch net (tdPartUrl baseurl i) "buffer") (seqZ 0 (n + 1)) in
    let tds := Promise_all (List.map snd tdpromises) in
    (List.concat (List.map fst tdpromises),
     mkPromise (settledAt tds)
       (match outcome tds with
        | inl e => inl e
        | inr l => inr (bufutil_concat l)
        end)).

End Fetch.

(** ** The response envelope *)

Module Response.
(** [response.data]; [blocklistFilter] is the address of the filter
    object the property refers to, [None] while the property is not set. *)
Record Data := mkData { blocklistFilter : option nat }.

Record t := mk {
  isException : bool;
  exceptionStack : string;
  exceptionFrom : string;
  data : Data
}.

(** [response.data.blocklistFilter = f]. *)
Definition set_blocklistFilter (f : nat) (r : t) : t :=
  mk (isException r) (exceptionStack r) (exceptionFrom r) (mkData (Some f)).
End Response.

(** Modelled from the spec: [util.emptyResponse] (commons/util.js) is not
    under src/. The envelope of a call that has not failed, with no filter
    attached yet. *)
Definition emptyResponse : Response.t :=
  Response.mk false "" "" (Response.mkData None).

(** Modelled from the spec: [util.errResponse] (commons/util.js) is not
    under src/. The uniform envelope of a failure: [isException] is set,
    [exceptionFrom] names the failing stage and [exceptionStack] carries the
    diagnostic message. *)
Definition errResponse (id : string) (e : JsError) : Response.t :=
  Response.mk true (message e) id (Response.mkData None).

(** [a || b] on Numbers: zero is falsy. *)
Definition orZ (a b : Z) : Z := if a =? 0 then b else a.

(** [a || b] on strings: the empty string is falsy. *)
Definition orString (a b : string) : string :=
  if String.eqb a "" then b else a.

(** ** The wrapper and its filter object *)

Record BasicConfig := { nodecount : Z; tdparts : Z }.

(** The parameter of [RethinkModule]. *)
Record Param := {
  rxid : string;
  blocklistUrl : string;
  latestTimestamp : string;
  workerTimeout : Z;
  tdParts : Z;
  tdNodecount : Z;
  fetchTimeout : Z
}.

(** The filter repository's builder, [createBlocklistFilter(td, rd, ft,
    config)] of radixTrie.js: it throws or returns the pair [.t], [.ft]. *)
Class FilterRepository `{Artifacts} := {
  createBlocklistFilter :
    option Payload -> option Payload -> option Payload -> BasicConfig ->
    JsError + (Trie * FrozenTrie)
}.

Section Wrapper.
Context `{FilterRepository}.

(** Modelled from the spec: the class [BlocklistFilter] (blocklistFilter.js)
    is not under src/. A filter object holds the four fields [loadFilter]
    sets, [.t], [.ft], [.blocklistBasicConfig] and [.blocklistFileTag], all
    null until then; [.t] is its readiness marker. *)
Record BlocklistFilter := {
  filter_t : option Trie;
  filter_ft : option FrozenTrie;
  filter_blocklistBasicConfig : option BasicConfig;
  filter_blocklistFileTag : option Payload
}.

Definition new_BlocklistFilter : BlocklistFilter :=
  {| filter_t := None; filter_ft := None;
     filter_blocklistBasicConfig := None; filter_blocklistFileTag := None |}.

(** [Object.keys(f)] of a filter object. *)
Definition keys (f : BlocklistFilter) : list string :=
  ["t"; "ft"; "blocklistBasicConfig"; "blocklistFileTag"].

(** Modelled from the spec: [util.emptyObj] (commons/util.js) is not under
    src/. An object is empty when it is missing or has no key. *)
Definition emptyObj (x : option BlocklistFilter) : bool :=
  match x with
  | None => true
  | Some f => (length (keys f) <=? 0)%nat
  end.

(** The fields of a [BlocklistWrapper] ([this]); [blocklistFilter] is the
    address of the shared filter object, [td], [rd] and [ft] the artifacts
    of the last download. *)
Record BlocklistWrapper := {
  blocklistFilter : nat;
  td : option Payload;
  rd : option Payload;
  ft : option Payload;
  startTime : Z;
  isBlocklistUnderConstruction : bool;
  exceptionFrom : string;
  exceptionStack : string
}.

(** The process-wide state: the objects allocated and the wrapper. *)
Record State := {
  heap : gmap nat BlocklistFilter;
  this : BlocklistWrapper
}.

(** [constructor()]: a fresh filter object and the initial fields. *)
Definition constructor (h : gmap nat BlocklistFilter) : State :=
  let a := fresh (dom h) in
  {| heap := <[a := new_BlocklistFilter]> h;
     this := {| blocklistFilter := a; td := None; rd := None; ft := None;
                startTime := 0; isBlocklistUnderConstruction := false;
                exceptionFrom := ""; exceptionStack := "" |} |}.

(** [isBlocklistFilterSetup()]. *)
Definition isBlocklistFilterSetup (s : State) : bool :=
  let f := heap s !! blocklistFilter (this s) in
  negb (emptyObj f) &&
  match f with
  | Some o => bool_decide (is_Some (filter_t o))
  | None => false
  end.

(** Modelled from the spec: [loadFilter(t, ft, blocklistBasicConfig,
    blocklistFileTag)] of the filter object at address [a] stores its four
    arguments in the object, in place. *)
Definition loadFilter (a : nat) (t : Trie) (frozen : FrozenTrie)
    (config : BasicConfig) (fileTag : option Payload)
    (h : gmap nat BlocklistFilter) : gmap nat BlocklistFilter :=
  <[a := {| filter_t := Some t; filter_ft := Some frozen;
            filter_blocklistBasicConfig := Some config;
            filter_blocklistFileTag := fileTag |}]> h.

(** Field updates of [this]. *)
Definition set_construction (flag : bool) (w : BlocklistWrapper) : BlocklistWrapper :=
  {| blocklistFilter := blocklistFilter w; td := td w; rd := rd w; ft := ft w;
     startTime := startTime w; isBlocklistUnderConstruction := flag;
     exceptionFrom := exceptionFrom w; exceptionStack := exceptionStack w |}.

Definition set_startTime (when : Z) (w : BlocklistWrapper) : BlocklistWrapper :=
  {| blocklistFilter := blocklistFilter w; td := td w; rd := rd w; ft := ft w;
     startTime := when;
     isBlocklistUnderConstruction := isBlocklistUnderConstruction w;
     exceptionFrom := exceptionFrom w; exceptionStack := exceptionStack w |}.

Definition set_downloads (d1 d2 d0 : option Payload) (w : BlocklistWrapper) : BlocklistWrapper :=
  {| blocklistFilter := blocklistFilter w; td := d1; rd := d2; ft := d0;
     startTime := startTime w;
     isBlocklistUnderConstruction := isBlocklistUnderConstruction w;
     exceptionFrom := exceptionFrom w; exceptionStack := exceptionStack w |}.

Definition set_exception (from stack : string) (w : BlocklistWrapper) : BlocklistWrapper :=
  {| blocklistFilter := blocklistFilter w; td := td w; rd := rd w; ft := ft w;
     startTime := startTime w;
     isBlocklistUnderConstruction := isBlocklistUnderConstruction w;
     exceptionFrom := from; exceptionStack := stack |}.

(** ** The build sequence *)

(** The object [downloadBuildBlocklist] returns. *)
Record Blocklist := {
  bl_t : Trie;
  bl_ft : FrozenTrie;
  bl_blocklistBasicConfig : BasicConfig;
  bl_blocklistFileTag : option Payload
}.

(** [downloadBuildBlocklist] up to [await Promise.all([buf0, buf1, buf2])]:
    the basic config, the requests issued and the promise awaited. *)
Definition downloadBuildBlocklist (net : Net)
    (blocklistUrl latestTimestamp : string) (tdNodecount tdParts : Z)
    : BasicConfig * Async (list Payload) :=
  let baseurl := blocklistUrl +:+ latestTimestamp in
  let blocklistBasicConfig :=
    {| nodecount := orZ tdNodecount (-1); tdparts := orZ tdParts (-1) |} in
  let buf0 := fileFetch net (baseurl +:+ "/filetag.json") "json" in
  let buf1 := makeTd net baseurl (tdparts blocklistBasicConfig) in
  let buf2 := fileFetch net (baseurl +:+ "/rd.txt") "buffer" in
  (blocklistBasicConfig,
   (fst buf0 ++ fst buf1 ++ fst buf2,
    Promise_all [snd buf0; snd buf1; snd buf2])).

(** [downloadBuildBlocklist] from the point where the downloads are in:
    they are stored in [this] and handed to the builder. *)
Definition downloadBuildBlocklist_resumed (blocklistBasicConfig : BasicConfig)
    (downloads : list Payload) (s : State) : State * (JsError + Blocklist) :=
  let w := set_downloads (downloads !! 1%nat) (downloads !! 2%nat)
                         (downloads !! 0%nat) (this s) in
  let s' := {| heap := heap s; this := w |} in
  match createBlocklistFilter (td w) (rd w) (ft w) blocklistBasicConfig with
  | inl e => (s', inl e)
  | inr (t, frozen) =>
      (s', inr {| bl_t := t; bl_ft := frozen;
                  bl_blocklistBasicConfig := blocklistBasicConfig;
                  bl_blocklistFileTag := ft w |})
  end.

(** A call suspended at an [await]: a builder inside
    [downloadBuildBlocklist], waiting for its downloads, or a waiter inside
    the polling loop of [RethinkModule], asleep for [waitms]. *)
Inductive Task :=
| AwaitDownloads (blocklistBasicConfig : BasicConfig) (downloads : Promise (list Payload))
| AwaitSleep (param : Param) (totalWaitms : Z).

(** How far a call got: suspended at an [await], or returned. *)
Inductive Outcome :=
| Suspended (k : Task)
| Returned (response : Response.t).

(** [initBlocklistConstruction] up to the [await]: the caller takes the
    builder role. *)
Definition initBlocklistConstruction (net : Net) (when : Z)
    (blocklistUrl latestTimestamp : string) (tdNodecount tdParts : Z)
    (s : State) : State * list string * Outcome :=
  let w := set_startTime when (set_construction true (this s)) in
  let '(config, (requests, downloads)) :=
    downloadBuildBlocklist net blocklistUrl latestTimestamp tdNodecount tdParts in
  ({| heap := heap s; this := w |}, requests,
   Suspended (AwaitDownloads config downloads)).

(** The [catch] block of [initBlocklistConstruction] and the statement
    after it. *)
Definition initBlocklistConstruction_catch (e : JsError) (s : State)
    : State * Response.t :=
  let response := errResponse "initBlocklistConstruction" e in
  let w := set_exception (Response.exceptionFrom response)
                         (Response.exceptionStack response) (this s) in
  ({| heap := heap s; this := set_construction false w |}, response).

(** [initBlocklistConstruction] from the point where the promise awaited
    in [downloadBuildBlocklist] has settled. *)
Definition initBlocklistConstruction_resumed (blocklistBasicConfig : BasicConfig)
    (settled : JsError + list Payload) (s : State) : State * Response.t :=
  match settled with
  | inl e => initBlocklistConstruction_catch e s
  | inr downloads =>
      match downloadBuildBlocklist_resumed blocklistBasicConfig downloads s with
      | (s1, inl e) => initBlocklistConstruction_catch e s1
      | (s1, inr bl) =>
          let h := loadFilter (blocklistFilter (this s1)) (bl_t bl) (bl_ft bl)
                     (bl_blocklistBasicConfig bl) (bl_blocklistFileTag bl) (heap s1) in
          let response :=
            Response.set_blocklistFilter (blocklistFilter (this s1)) emptyResponse in
          ({| heap := h; this := set_construction false (this s1) |}, response)
      end
  end.

(** ** The coordinator *)

Definition waitms : Z := 50.

(** The envelope of a waiter whose budget is used up. *)
Definition timeoutResponse (totalWaitms : Z) (s : State) : Response.t :=
  Response.mk true
    (orString (exceptionStack (this s)) ("blocklist-filter timeout " +:+ toString totalWaitms))
    (orString (exceptionFrom (this s)) "blocklistWrapper.js")
    (Response.data emptyResponse).

(** The envelope that hands out the shared filter. *)
Definition readyResponse (s : State) : Response.t :=
  Response.set_blocklistFilter (blocklistFilter (this s)) emptyResponse.

(** One turn of [while (totalWaitms < param.fetchTimeout)], from the test
    of the loop to the [await sleep(waitms)]. *)
Definition waitLoop (param : Param) (totalWaitms : Z) (s : State) : Outcome :=
  if totalWaitms <? fetchTimeout param then
    if isBlocklistFilterSetup s then Returned (readyResponse s)
    else Suspended (AwaitSleep param totalWaitms)
  else Returned (timeoutResponse totalWaitms s).

(** [RethinkModule(param)] up to its first [await]; [now] is what
    [Date.now()] returns and [net] the network the fetches of this call
    meet. *)
Definition RethinkModule (now : Z) (net : Net) (param : Param) (s : State)
    : State * list string * Outcome :=
  if isBlocklistFilterSetup s then (s, [], Returned (readyResponse s))
  else if negb (isBlocklistUnderConstruction (this s))
          || (now - startTime (this s) >? workerTimeout param * 2) then
    initBlocklistConstruction net now (blocklistUrl param) (latestTimestamp param)
      (tdNodecount param) (tdParts param) s
  else (s, [], waitLoop param 0 s).

(** A suspended call resumes when the promise it awaits settles. *)
Definition resume (k : Task) (s : State) : State * Outcome :=
  match k with
  | AwaitDownloads config downloads =>
      let '(s', response) := initBlocklistConstruction_resumed config (outcome downloads) s in
      (s', Returned response)
  | AwaitSleep param totalWaitms =>
      (s, waitLoop param (totalWaitms + waitms) s)
  end.

End Wrapper.

(** ** The scheduler *)

Section Scheduler.
Context `{FilterRepository}.

(** What the event loop does next: a caller invokes [RethinkModule] (the
    clock reads [now]; [net] is the network its fetches meet), or the
    promise awaited by the [i]-th suspended call settles and the call runs
    on to its next [await] or to its [return]. *)
Inductive Event :=
| Call (now : Z) (net : Net) (param : Param)
| Settle (i : nat).

(** What a turn of the event loop shows: the fetches issued during it and
    the envelope returned to a caller, if a call returned. *)
Record Observation := {
  requests : list string;
  returned : option Response.t
}.

(** The shared state and the calls suspended at an [await]. *)
Definition System : Type := State * list Task.

Definition step (sys : System) (ev : Event) : option (System * Observation) :=
  let '(s, tasks) := sys in
  match ev with
  | Call now net param =>
      let '(s', reqs, out) := RethinkModule now net param s in
      match out with
      | Suspended k =>
          Some ((s', tasks ++ [k]), {| requests := reqs; returned := None |})
      | Returned r =>
          Some ((s', tasks), {| requests := reqs; returned := Some r |})
      end
  | Settle i =>
      match tasks !! i with
      | None => None
      | Some k =>
          let '(s', out) := resume k s in
          match out with
          | Suspended k' =>
              Some ((s', <[i := k']> tasks), {| requests := []; returned := None |})
          | Returned r =>
              Some ((s', delete i tasks), {| requests := []; returned := Some r |})
          end
      end
  end.

(** A run of the event loop; [None] when an event names no suspended call. *)
Fixpoint run (sys : System) (evs : list Event) : option (System * list Observation) :=
  match evs with
  | [] => Some (sys, [])
  | ev :: evs' =>
      match step sys ev with
      | None => None
      | Some (sys', o) =>
          match run sys' evs' with
          | None => None
          | Some (sys'', os) => Some (sys'', o :: os)
          end
      end
  end.

(** The process starts with a fresh wrapper and no call in flight. *)
Definition initial : System := (constructor ∅, []).

(** The build state of the spec, read off the wrapper. *)
Inductive BuildState :=
| Idle
| Building (startedAt : Z)
| Ready.

Definition buildState (s : State) : BuildState :=
  if isBlocklistFilterSetup s then Ready
  else if isBlocklistUnderConstruction (this s) then Building (startTime (this s))
  else Idle.

(** The builders among the suspended calls. *)
Definition isBuilder (k : Task) : bool :=
  match k with
  | AwaitDownloads _ _ => true
  | AwaitSleep _ _ => false
  end.

Definition buildsInFlight (tasks : list Task) : nat :=
  length (List.filter isBuilder tasks).

Definition builderCount (k : Task) : nat := if isBuilder k then 1 else 0.

(** The invariant of the runs in which no call overrides a build: the
    flag tells whether a build is in flight, there is at most one, and it
    runs only while the filter is not ready. *)
Definition oneBuild (sys : System) : Prop :=
  buildsInFlight (snd sys)
  = (if isBlocklistUnderConstruction (this (fst sys)) then 1 else 0)%nat
  /\ (isBlocklistUnderConstruction (this (fst sys)) = true ->
      isBlocklistFilterSetup (fst sys) = false).

(** The failure on record: none at all, or one of a build. *)
Definition recordKept (s : State) : Prop :=
  (exceptionFrom (this s) = "" /\ exceptionStack (this s) = "")
  \/ exceptionFrom (this s) = "initBlocklistConstruction".

(** The event is a call that overrides a build in progress: the filter
    is not ready, [isBlocklistUnderConstruction] is set, and the build has
    been running for more than twice the caller's [workerTimeout]. *)
Definition staleOverride (s : State) (ev : Event) : bool :=
  match ev with
  | Call now _ param =>
      negb (isBlocklistFilterSetup s)
      && isBlocklistUnderConstruction (this s)
      && (now - startTime (this s) >? workerTimeout param * 2)
  | Settle _ => false
  end.

(** No call of the run overrides a build in progress. *)
Fixpoint noStaleOverride (sys : System) (evs : list Event) : bool :=
  match evs with
  | [] => true
  | ev :: evs' =>
      negb (staleOverride (fst sys) ev)
      && match step sys ev with
         | Some (sys', _) => noStaleOverride sys' evs'
         | None => true
         end
  end.

(** The polling loop of a waiter as a whole, from the test of
    [while (totalWaitms < param.fetchTimeout)]: [obs k] is the state the
    waiter finds at its [k]-th turn (other calls run while it sleeps). It
    yields the values of [totalWaitms] at which readiness was polled and
    the envelope returned. *)
Equations? poll (obs : nat -> State) (param : Param) (k : nat) (totalWaitms : Z)
  : list Z * Response.t by wf (Z.to_nat (fetchTimeout param - totalWaitms)) lt :=
  poll obs param k totalWaitms with Z_lt_dec totalWaitms (fetchTimeout param) := {
    | left _ =>
        if isBlocklistFilterSetup (obs k) then ([totalWaitms], readyResponse (obs k))
        else
          let rest := poll obs param (S k) (totalWaitms + waitms) in
          (totalWaitms :: fst rest, snd rest)
    | right _ => ([], timeoutResponse totalWaitms (obs k))
  }.
Proof. unfold waitms. lia. Qed.

End Scheduler.

(** ** The synchronous construction *)

Section SyncConstruction.
Context `{FilterRepository}.

(** The properties [.blocklistBasicConfig] and [.blocklistFileTag] of the
    object [createBlocklistFilter] returns for the given arguments,
    undefined ([None]) where the builder sets none. *)
Variable builtProperties :
  option Payload -> option Payload -> option Payload -> BasicConfig ->
  option BasicConfig * option Payload.

(** [initBlocklistFilterConstruction(td, rd, ft, config)]; [now] is what
    [Date.now()] returns. There is no [try]: what the builder throws
    leaves the method at once, with the state as it is at that point. *)
Definition initBlocklistFilterConstruction (now : Z) (td rd ft : option Payload)
    (config : BasicConfig) (s : State) : State * (JsError + unit) :=
  let w := set_startTime now (set_construction true (this s)) in
  match createBlocklistFilter td rd ft config with
  | inl e => ({| heap := heap s; this := w |}, inl e)
  | inr (t, frozen) =>
      let props := builtProperties td rd ft config in
      ({| heap := <[blocklistFilter w :=
                      {| filter_t := Some t; filter_ft := Some frozen;
                         filter_blocklistBasicConfig := fst props;
                         filter_blocklistFileTag := snd props |}]> (heap s);
          this := set_construction false w |}, inr tt)
  end.

End SyncConstruction.

(** ** A concrete platform, network and requests for the examples *)

Module Example.

(** Artifacts: JSON documents kept as text, tries as unit tokens. *)
#[export] Instance artifacts : Artifacts :=
  {| Json := string; Trie := unit; FrozenTrie := unit |}.

(** A builder that wants an ArrayBuffer for the trie and the rank
    directory and a JSON document for the file tags. *)
#[export] Instance repository : FilterRepository :=
  {| createBlocklistFilter := fun td rd ft _ =>
       match td, rd, ft with
       | Some (ArrayBuffer _), Some (ArrayBuffer _), Some (JsonValue _) => inr (tt, tt)
       | _, _, _ => inl (mkError "cannot build")
       end |}.

(** A 200 response carrying [b] (as bytes) and [j] (as JSON). *)
Definition res200 (b : Buffer) (j : string) : FetchResponse :=
  {| ok := true; status := 200; stringified := "{}";
     arrayBuffer := mkPromise 2%nat (inr b);
     json := mkPromise 2%nat (inr j) |}.

(** A 404 response of a runtime that follows the Fetch standard. *)
Definition res404 : FetchResponse :=
  {| ok := false; status := 404; stringified := "{}";
     arrayBuffer := mkPromise 2%nat (inr []);
     json := mkPromise 2%nat (inl (mkError "Unexpected end of JSON input")) |}.

(** Every resource is there; its body is the one byte 0x01. *)
Definition netUp : Net := fun _ => mkPromise 1%nat (inr (res200 [Byte.x01] "{}")).

(** Every resource is missing. *)
Definition netDown : Net := fun _ => mkPromise 1%nat (inr res404).

(** The connection breaks before any response. *)
Definition netBroken : Net := fun _ => mkPromise 1%nat (inl (mkError "boom")).


(** A request for a trie in three parts, with a worker timeout of 10
    and a polling budget of 120. *)
Definition request : Param :=
  {| rxid := "rx"; blocklistUrl := "https://example.test/blocklists/";
     latestTimestamp := "1638959365361"; workerTimeout := 10;
     tdParts := 2; tdNodecount := 5; fetchTimeout := 120 |}.

Definition withParts (n : Z) (p : Param) : Param :=
  {| rxid := rxid p; blocklistUrl := blocklistUrl p;
     latestTimestamp := latestTimestamp p; workerTimeout := workerTimeout p;
     tdParts := n; tdNodecount := tdNodecount p; fetchTimeout := fetchTimeout p |}.

(** What the turns of [evs] show, from the initial system. *)
Definition observed (evs : list Event) : list Observation :=
  match run initial evs with
  | Some (_, os) => os
  | None => []
  end.

(** The system after [evs], from the initial one. *)
Definition after (evs : list Event) : System :=
  match run initial evs with
  | Some (sys, _) => sys
  | None => initial
  end.

(** A builder object that repeats its config and file tags. *)
Definition builtProperties (td rd ft : option Payload) (config : BasicConfig)
  : option BasicConfig * option Payload := (Some config, ft).

(** Three parts arrive, then the connection breaks. *)
Definition netPartial : Net := fun url =>
  if String.eqb url "https://example.test/1/td03.txt"
  then mkPromise 1%nat (inl (mkError "boom"))
  else mkPromise 3%nat (inr (res200 [Byte.x02] "{}")).

(** A first build has succeeded: the filter is ready. *)
Definition ready : System := after [Call 0 netUp request; Settle 0%nat].

(** A first build is in flight, started at 0; nothing has failed. *)
Definition building : System := after [Call 0 netUp request].

(** A first build failed on a broken connection, a second one, started
    at 1, is in flight. *)
Definition failedThenBuilding : System :=
  after [Call 0 netBroken request; Settle 0%nat; Call 1 netUp request].


(** A build started at 0 is overridden as stale at 21; the first build
    succeeds, the second is still in flight. *)
Definition overriddenLoaded : list Event :=
  [Call 0 netUp request; Call 21 netBroken request; Settle 0%nat].

(** A build started at 0 is overridden as stale at 21, twice the worker
    timeout of 10 having passed; then the first build fails. *)
Definition overridden : list Event :=
  [Call 0 netBroken request; Call 21 netUp request; Settle 0%nat].

(** A build, a waiter that joins it at 5, and the end of the build. *)
Definition joined : list Event :=
  [Call 0 netUp request; Call 5 netUp request; Settle 0%nat].

End Example.

(** * Properties *)

(** ** Strings *)

Lemma append_nil (s : string) : "" +:+ s = s.
Proof. reflexivity. Qed.

Lemma append_cons (c : ascii) (a b : string) :
  String c a +:+ b = String c (a +:+ b).
Proof. reflexivity. Qed.

Lemma append_assoc (a b c : string) : (a +:+ b) +:+ c = a +:+ b +:+ c.
Proof.
  induction a as [|x a IH]; [reflexivity|].
  rewrite !append_cons, IH. reflexivity.
Qed.

Lemma prefix_append (pat b : string) : String.prefix pat (pat +:+ b) = true.
Proof.
  induction pat as [|c pat IH].
  - rewrite append_nil. destruct b; reflexivity.
  - rewrite append_cons. simpl. destruct (ascii_dec c c); [exact IH | congruence].
Qed.

Lemma includes_prefix (pat s : string) :
  String.prefix pat s = true -> includes pat s = true.
Proof. intros Hp. destruct s; cbn [includes]; rewrite Hp; reflexivity. Qed.

Lemma includes_append (pat a b : string) : includes pat (a +:+ pat +:+ b) = true.
Proof.
  induction a as [|c a IH].
  - rewrite append_nil. apply includes_prefix, prefix_append.
  - rewrite append_cons. cbn [includes]. rewrite IH. apply orb_true_r.
Qed.

Lemma quoteJSONChar_plain (c : ascii) :
  plainChar c = true -> quoteJSONChar c = String c EmptyString.
Proof.
  unfold plainChar, quoteJSONChar. cbv zeta.
  intros Hp. apply andb_prop in Hp as [Hp H32]. apply andb_prop in Hp as [H34 H92].
  apply negb_true_iff in H34, H92, H32. rewrite H34, H92, H32.
  apply Nat.ltb_ge in H32.
  repeat match goal with
  | |- context [(?n =? ?k)%nat] =>
      destruct (Nat.eqb_spec n k) as [E|_]; [rewrite E in H32; lia|]
  end.
  reflexivity.
Qed.

Lemma quoteJSONBody_plain (s : string) :
  plainString s = true -> quoteJSONBody s = s.
Proof.
  induction s as [|c s IH]; simpl; [reflexivity|].
  intros Hp. apply andb_prop in Hp as [Hc Hs].
  rewrite (quoteJSONChar_plain c Hc), (IH Hs), append_cons. reflexivity.
Qed.

(** A URL without quote, backslash or control character is quoted as
    itself between two quotes, so the quoted form includes it. *)
Lemma quoteJSONString_includes (s : string) :
  plainString s = true -> includes s (quoteJSONString s) = true.
Proof.
  intros Hp. unfold quoteJSONString. rewrite (quoteJSONBody_plain s Hp).
  exact (includes_append s (String dquote EmptyString) (String dquote EmptyString)).
Qed.

(** ** The number formats *)

Lemma toLocaleString_examples :
  toLocaleString 0 = "00" /\ toLocaleString 9 = "09" /\
  toLocaleString 12 = "12" /\ toLocaleString 150 = "150".
Proof. repeat split; reflexivity. Qed.

Lemma string_of_uint_length (d : Decimal.uint) :
  String.length (NilEmpty.string_of_uint d) = Decimal.nb_digits d.
Proof. induction d; simpl; congruence. Qed.

(** A positive number of one decimal digit is below ten. *)
Lemma one_digit_small (p : positive) :
  (Decimal.nb_digits (Pos.to_uint p) <= 1)%nat -> (Z.pos p < 10)%Z.
Proof.
  intros Hlen. pose proof (DecimalPos.Unsigned.of_to p) as Hp.
  destruct (Pos.to_uint p) as [|d|d|d|d|d|d|d|d|d|d]; simpl in Hlen;
    try (destruct d; simpl in Hlen; try lia;
         cbv in Hp; try discriminate; injection Hp as <-; lia).
  cbv in Hp. discriminate.
Qed.

Lemma toString_length (i : Z) :
  10 <= i -> (2 <= String.length (toString i))%nat.
Proof.
  intros Hi. destruct i as [|p|p]; try lia.
  unfold toString. simpl.
  pose proof (one_digit_small p) as Hsmall.
  unfold NilZero.string_of_uint.
  destruct (Pos.to_uint p) eqn:E;
    try (rewrite string_of_uint_length; simpl in *; destruct (Decimal.nb_digits _); lia).
  simpl in Hsmall. lia.
Qed.

(** Below ten the index gets one leading zero. *)
Lemma toLocaleString_small (i : Z) :
  0 <= i < 10 -> toLocaleString i = "0" +:+ toString i.
Proof.
  intros Hi.
  assert (Hc : i = 0 \/ i = 1 \/ i = 2 \/ i = 3 \/ i = 4 \/ i = 5 \/
               i = 6 \/ i = 7 \/ i = 8 \/ i = 9) by lia.
  repeat (destruct Hc as [->|Hc]; [reflexivity|]). subst. reflexivity.
Qed.

(** From ten on the index is printed at its natural width. *)
Lemma toLocaleString_wide (i : Z) :
  10 <= i -> toLocaleString i = toString i.
Proof.
  intros Hi. unfold toLocaleString.
  destruct (Z.ltb_spec i 0); [lia|].
  rewrite Z.abs_eq by lia.
  pose proof (toString_length i Hi) as Hlen.
  replace (2 - String.length (toString i))%nat with 0%nat by lia.
  reflexivity.
Qed.

(** ** Promises *)

Section PromiseFacts.
Context {A : Type}.

Lemma Promise_all_fulfilled (ps : list (Promise A)) (l : list A) :
  Forall2 (fun p a => outcome p = inr a) ps l ->
  outcome (Promise_all ps) = inr l.
Proof.
  induction 1 as [|p a ps l Hp _ IH]; simpl; [reflexivity|].
  rewrite Hp, IH. reflexivity.
Qed.

(** Fail fast: one rejected leg rejects the whole join. *)
Lemma Promise_all_rejected (ps : list (Promise A)) :
  Exists (fun p => rejected p = true) ps ->
  exists e, outcome (Promise_all ps) = inl e.
Proof.
  unfold rejected. induction 1 as [p ps Hp | p ps _ IH]; simpl.
  - destruct (outcome p) as [e|a]; [|discriminate].
    destruct (outcome (Promise_all ps)) as [e'|l]; [|eauto].
    destruct (settledAt p <=? settledAt (Promise_all ps))%nat; eauto.
  - destruct IH as [e' He']. rewrite He'.
    destruct (outcome p) as [e|a]; [|eauto].
    destruct (settledAt p <=? settledAt (Promise_all ps))%nat; eauto.
Qed.

(** The reason of a rejected join is the reason of one of its legs. *)
Lemma Promise_all_reason (ps : list (Promise A)) (e : JsError) :
  outcome (Promise_all ps) = inl e ->
  Exists (fun p => outcome p = inl e) ps.
Proof.
  induction ps as [|p ps IH]; simpl; [discriminate|].
  destruct (outcome p) as [e1|a] eqn:Hp;
    destruct (outcome (Promise_all ps)) as [e2|l] eqn:Hr; simpl.
  - destruct (settledAt p <=? settledAt (Promise_all ps))%nat; simpl;
      intros [= <-]; [left; exact Hp | right; apply IH; reflexivity].
  - intros [= <-]. left. exact Hp.
  - intros [= <-]. right. apply IH. reflexivity.
  - discriminate.
Qed.

End PromiseFacts.

(** ** The asset fetcher and the part assembler *)

Section FetchFacts.
Context `{FilterRepository}.

Lemma fileFetch_buffer_requests (net : Net) (url : string) :
  fst (fileFetch net url "buffer") = [url].
Proof. reflexivity. Qed.

Lemma fileFetch_buffer_fulfilled (net : Net) (url : string) (r : FetchResponse) (b : Buffer) :
  outcome (net url) = inr r -> ok r = true -> outcome (arrayBuffer r) = inr b ->
  outcome (snd (fileFetch net url "buffer")) = inr (ArrayBuffer b).
Proof.
  intros Hnet Hok Hbody. unfold fileFetch. simpl.
  rewrite Hnet, Hok. simpl. rewrite Hbody. reflexivity.
Qed.

Lemma makeTd_requests (net : Net) (baseurl : string) (l : list Z) :
  List.concat (List.map fst
    (List.map (fun i => fileFetch net (tdPartUrl baseurl i) "buffer") l))
  = List.map (tdPartUrl baseurl) l.
Proof. induction l as [|i l IH]; simpl; [reflexivity | now rewrite IH]. Qed.

Lemma makeTd_split (net : Net) (baseurl : string) (n : Z) :
  0 <= n ->
  makeTd net baseurl n =
  (List.map (tdPartUrl baseurl) (seqZ 0 (n + 1)),
   let tds := Promise_all (List.map snd
                (List.map (fun i => fileFetch net (tdPartUrl baseurl i) "buffer")
                          (seqZ 0 (n + 1)))) in
   mkPromise (settledAt tds)
     (match outcome tds with
      | inl e => inl e
      | inr l => inr (bufutil_concat l)
      end)).
Proof.
  intros Hn. unfold makeTd.
  destruct (Z.leb_spec n (-1)); [lia|].
  rewrite makeTd_requests. reflexivity.
Qed.

Lemma downloadBuildBlocklist_requests (net : Net)
    (blocklistUrl latestTimestamp : string) (tdNodecount tdParts : Z) :
  fst (snd (downloadBuildBlocklist net blocklistUrl latestTimestamp tdNodecount tdParts))
  = [(blocklistUrl +:+ latestTimestamp) +:+ "/filetag.json"]
    ++ fst (makeTd net (blocklistUrl +:+ latestTimestamp) (orZ tdParts (-1)))
    ++ [(blocklistUrl +:+ latestTimestamp) +:+ "/rd.txt"].
Proof. reflexivity. Qed.

(** C7. With a part count of -1 the trie is one artifact: [makeTd]
    issues exactly one fetch, of [baseurl + "/td.txt"] as a buffer, and
    resolves to the bytes of that response, unmodified; a request with
    [tdParts = -1] therefore fetches the file tags, [/td.txt] and the rank
    directory, and nothing else. *)
Theorem makeTd_single_artifact (net : Net) (baseurl : string) :
  makeTd net baseurl (-1) = fileFetch net (baseurl +:+ "/td.txt") "buffer"
  /\ fst (makeTd net baseurl (-1)) = [baseurl +:+ "/td.txt"]
  /\ (forall (r : FetchResponse) (b : Buffer),
        outcome (net (baseurl +:+ "/td.txt")) = inr r -> ok r = true ->
        outcome (arrayBuffer r) = inr b ->
        outcome (snd (makeTd net baseurl (-1))) = inr (ArrayBuffer b))
  /\ (forall blocklistUrl latestTimestamp tdNodecount,
        baseurl = blocklistUrl +:+ latestTimestamp ->
        fst (snd (downloadBuildBlocklist net blocklistUrl latestTimestamp tdNodecount (-1)))
        = [baseurl +:+ "/filetag.json"; baseurl +:+ "/td.txt"; baseurl +:+ "/rd.txt"]).
Proof.
  repeat split.
  - intros r b Hnet Hok Hbody.
    change (makeTd net baseurl (-1)) with (fileFetch net (baseurl +:+ "/td.txt") "buffer").
    eapply fileFetch_buffer_fulfilled; eassumption.
  - intros ? ? ? ->. reflexivity.
Qed.

(** C2, as amended. For every part count [n >= 0] handed to [makeTd], the
    assembly fetches exactly [n + 1] resources, [baseurl + "/td" + index +
    ".txt"] for the indices 0 to [n] in ascending order, the index printed
    in decimal with a leading zero below ten and at its natural width from
    ten on; when every part arrives, the assembled trie is the
    concatenation of the bodies in index order. A request reaches
    [makeTd] with its own [tdParts] when that is not zero. *)
Theorem makeTd_multi_part (net : Net) (baseurl : string) (n : Z) :
  0 <= n ->
  fst (makeTd net baseurl n) = List.map (tdPartUrl baseurl) (seqZ 0 (n + 1))
  /\ Z.of_nat (length (fst (makeTd net baseurl n))) = n + 1
  /\ (forall i, 0 <= i < 10 ->
        tdPartUrl baseurl i = baseurl +:+ "/td" +:+ ("0" +:+ toString i) +:+ ".txt")
  /\ (forall i, 10 <= i ->
        tdPartUrl baseurl i = baseurl +:+ "/td" +:+ toString i +:+ ".txt")
  /\ (forall bodies : list Buffer,
        Forall2 (fun i b =>
           outcome (snd (fileFetch net (tdPartUrl baseurl i) "buffer")) = inr (ArrayBuffer b))
          (seqZ 0 (n + 1)) bodies ->
        outcome (snd (makeTd net baseurl n)) = inr (ArrayBuffer (List.concat bodies)))
  /\ (forall blocklistUrl latestTimestamp tdNodecount,
        n <> 0 -> baseurl = blocklistUrl +:+ latestTimestamp ->
        fst (snd (downloadBuildBlocklist net blocklistUrl latestTimestamp tdNodecount n))
        = [baseurl +:+ "/filetag.json"]
          ++ List.map (tdPartUrl baseurl) (seqZ 0 (n + 1))
          ++ [baseurl +:+ "/rd.txt"]).
Proof.
  intros Hn. rewrite (makeTd_split net baseurl n Hn). cbn [fst snd].
  split; [reflexivity|].
  split; [rewrite length_map, length_seqZ; lia|].
  split; [intros i Hi; unfold tdPartUrl; now rewrite toLocaleString_small|].
  split; [intros i Hi; unfold tdPartUrl; now rewrite toLocaleString_wide|].
  split.
  - intros bodies Hall. cbn zeta. cbn [outcome].
    rewrite (Promise_all_fulfilled _ (List.map ArrayBuffer bodies)).
    + unfold bufutil_concat. rewrite List.map_map. cbn [bytesOf].
      rewrite List.map_id. reflexivity.
    + rewrite List.map_map. clear Hn.
      induction Hall as [|i b l bs Hi _ IH]; simpl; constructor; assumption.
  - intros blocklistUrl latestTimestamp tdNodecount Hn0 ->.
    rewrite downloadBuildBlocklist_requests.
    unfold orZ. destruct (Z.eqb_spec n 0); [contradiction|].
    rewrite (makeTd_split net _ n Hn). reflexivity.
Qed.

(** C8. A request with [tdParts = 0] is built as an unsplit one: the basic
    config records [tdparts = -1], the trie is fetched as the single
    resource [/td.txt] (never [/td00.txt]), exactly as for [tdParts = -1],
    and this config is the one handed to the filter builder; likewise
    [tdNodecount = 0] is recorded as [nodecount = -1]. *)
Theorem tdParts_zero_is_unsplit (net : Net)
    (blocklistUrl latestTimestamp : string) (tdNodecount : Z) :
  fst (downloadBuildBlocklist net blocklistUrl latestTimestamp tdNodecount 0)
  = {| nodecount := orZ tdNodecount (-1); tdparts := -1 |}
  /\ fst (snd (downloadBuildBlocklist net blocklistUrl latestTimestamp tdNodecount 0))
     = [(blocklistUrl +:+ latestTimestamp) +:+ "/filetag.json";
        (blocklistUrl +:+ latestTimestamp) +:+ "/td.txt";
        (blocklistUrl +:+ latestTimestamp) +:+ "/rd.txt"]
  /\ downloadBuildBlocklist net blocklistUrl latestTimestamp tdNodecount 0
     = downloadBuildBlocklist net blocklistUrl latestTimestamp tdNodecount (-1)
  /\ (forall tdParts,
        nodecount (fst (downloadBuildBlocklist net blocklistUrl latestTimestamp 0 tdParts)) = -1)
  /\ (forall (downloads : list Payload) (s : State),
        snd (downloadBuildBlocklist_resumed
               (fst (downloadBuildBlocklist net blocklistUrl latestTimestamp tdNodecount 0))
               downloads s)
        = match createBlocklistFilter (downloads !! 1%nat) (downloads !! 2%nat)
                  (downloads !! 0%nat)
                  {| nodecount := orZ tdNodecount (-1); tdparts := -1 |} with
          | inl e => inl e
          | inr (t, frozen) =>
              inr {| bl_t := t; bl_ft := frozen;
                     bl_blocklistBasicConfig :=
                       {| nodecount := orZ tdNodecount (-1); tdparts := -1 |};
                     bl_blocklistFileTag := downloads !! 0%nat |}
          end).
Proof.
  repeat split.
  intros downloads s. unfold downloadBuildBlocklist_resumed. cbn.
  destruct (createBlocklistFilter _ _ _ _) as [e|[t frozen]]; reflexivity.
Qed.

End FetchFacts.

Section FetchFailure.
Context `{Artifacts}.

Lemma fileFetchFailMessage_shape (url : string) (r : FetchResponse) :
  fileFetchFailMessage url r
  = ("[" +:+ String dquote EmptyString) +:+ quoteJSONBody url
      +:+ (String dquote EmptyString +:+ "," +:+ stringified r +:+ ","
           +:+ quoteJSONString "fileFetch fail" +:+ "]").
Proof.
  unfold fileFetchFailMessage, quoteJSONString.
  rewrite !append_cons, !append_nil, !append_assoc, !append_cons, !append_nil.
  reflexivity.
Qed.

(** C9, as amended. A fetch whose response is not a success issues its one
    request and is rejected, with no retry, with an Error whose message is
    [JSON.stringify([url, res, "fileFetch fail"])]: it includes the URL as a
    JSON string literal (hence the URL itself when no character of it needs
    an escape) and the text the runtime serialises the response object to;
    a join over such a fetch is rejected, so the build attempt is aborted. *)
Theorem fileFetch_not_ok (net : Net) (url typ : string) (r : FetchResponse) :
  typ = "buffer" \/ typ = "json" ->
  outcome (net url) = inr r -> ok r = false ->
  fileFetch net url typ
  = ([url], mkPromise (settledAt (net url))
                      (inl (mkError (fileFetchFailMessage url r))))
  /\ includes (quoteJSONString url) (fileFetchFailMessage url r) = true
  /\ includes (stringified r) (fileFetchFailMessage url r) = true
  /\ (plainString url = true -> includes url (fileFetchFailMessage url r) = true)
  /\ (forall legs, In (snd (fileFetch net url typ)) legs ->
        exists e, outcome (Promise_all legs) = inl e).
Proof.
  intros Htyp Hnet Hok.
  assert (Hfetch : fileFetch net url typ
     = ([url], mkPromise (settledAt (net url))
                         (inl (mkError (fileFetchFailMessage url r))))).
  { unfold fileFetch. destruct Htyp as [-> | ->]; simpl; rewrite Hnet, Hok; reflexivity. }
  split; [exact Hfetch|].
  split; [unfold fileFetchFailMessage; apply (includes_append _ "[")|].
  split.
  { unfold fileFetchFailMessage.
    rewrite <- (append_assoc "[" (quoteJSONString url) _).
    rewrite <- (append_assoc _ "," _).
    apply includes_append. }
  split.
  { intros Hplain. rewrite fileFetchFailMessage_shape, (quoteJSONBody_plain url Hplain).
    apply includes_append. }
  intros legs Hin. apply Promise_all_rejected.
  apply Exists_exists. exists (snd (fileFetch net url typ)). split; [apply list_elem_of_In; exact Hin|].
  rewrite Hfetch. reflexivity.
Qed.

End FetchFailure.

(** C9, witness: the missing trie of the example network. *)
Lemma fileFetch_not_ok_witness :
  outcome (Example.netDown "https://example.test/td.txt") = inr Example.res404
  /\ includes "https://example.test/td.txt"
       (fileFetchFailMessage "https://example.test/td.txt" Example.res404) = true.
Proof.
  split; [reflexivity|].
  apply (fileFetch_not_ok Example.netDown "https://example.test/td.txt" "buffer"
           Example.res404 (or_introl eq_refl) eq_refl eq_refl).
  reflexivity.
Defined.

(** C9, counterexample: on a runtime whose Response serialises to [{}] the
    message of a 404 does not include the status. *)
Lemma fileFetch_message_without_status :
  ~ (forall (A : Artifacts) (net : Net) (url typ : string) (r : FetchResponse),
       typ = "buffer" \/ typ = "json" ->
       outcome (net url) = inr r -> ok r = false ->
       exists msg,
         outcome (snd (fileFetch net url typ)) = inl (mkError msg)
         /\ includes url msg = true
         /\ includes (toString (status r)) msg = true).
Proof.
  intros Hclaim.
  destruct (Hclaim Example.artifacts Example.netDown "https://example.test/td.txt"
              "buffer" Example.res404 (or_introl eq_refl) eq_refl eq_refl)
    as (msg & Hmsg & _ & Hstatus).
  vm_compute in Hmsg. injection Hmsg as <-.
  vm_compute in Hstatus. discriminate.
Qed.

(** C2, counterexample: a request with [tdParts = 0] fetches [/td.txt], not
    the one part [/td00.txt]. *)
Lemma tdParts_zero_not_multi_part :
  ~ (forall (A : Artifacts) (net : Net) (blocklistUrl latestTimestamp : string)
            (tdNodecount n : Z),
       0 <= n ->
       fst (snd (downloadBuildBlocklist net blocklistUrl latestTimestamp tdNodecount n))
       = [(blocklistUrl +:+ latestTimestamp) +:+ "/filetag.json"]
         ++ List.map (tdPartUrl (blocklistUrl +:+ latestTimestamp)) (seqZ 0 (n + 1))
         ++ [(blocklistUrl +:+ latestTimestamp) +:+ "/rd.txt"]).
Proof.
  intros Hclaim.
  specialize (Hclaim Example.artifacts Example.netUp "https://example.test/" "1" 5 0
                ltac:(lia)).
  vm_compute in Hclaim. discriminate.
Qed.

(** C2, witness: a trie in three parts. *)
Lemma makeTd_multi_part_witness :
  0 <= 2
  /\ fst (makeTd Example.netUp "https://example.test/1" 2)
     = ["https://example.test/1/td00.txt"; "https://example.test/1/td01.txt";
        "https://example.test/1/td02.txt"].
Proof.
  split; [lia|].
  apply (makeTd_multi_part Example.netUp "https://example.test/1" 2). lia.
Defined.

(** C7, witness: the single artifact of the example network. *)
Lemma makeTd_single_artifact_witness :
  outcome (snd (makeTd Example.netUp "https://example.test/1" (-1)))
  = inr (ArrayBuffer [Byte.x01]).
Proof.
  apply (makeTd_single_artifact Example.netUp "https://example.test/1")
    with (r := Example.res200 [Byte.x01] "{}"); reflexivity.
Defined.

(** ** The coordinator *)

Section CoordinatorFacts.
Context `{FilterRepository}.

Lemma isBlocklistFilterSetup_frame (s : State) (w : BlocklistWrapper) :
  blocklistFilter w = blocklistFilter (this s) ->
  isBlocklistFilterSetup {| heap := heap s; this := w |} = isBlocklistFilterSetup s.
Proof. intros Hw. unfold isBlocklistFilterSetup. cbn [heap this]. rewrite Hw. reflexivity. Qed.

Lemma isBlocklistFilterSetup_loadFilter (a : nat) (t : Trie) (frozen : FrozenTrie)
    (config : BasicConfig) (tag : option Payload) (h : gmap nat BlocklistFilter)
    (w : BlocklistWrapper) :
  blocklistFilter w = a ->
  isBlocklistFilterSetup {| heap := loadFilter a t frozen config tag h; this := w |} = true.
Proof.
  intros <-. unfold isBlocklistFilterSetup, loadFilter. cbn [heap this].
  rewrite lookup_insert_eq. reflexivity.
Qed.

Lemma buildState_Ready (s : State) :
  buildState s = Ready <-> isBlocklistFilterSetup s = true.
Proof.
  unfold buildState. destruct (isBlocklistFilterSetup s); [tauto|].
  destruct (isBlocklistUnderConstruction (this s)); split; discriminate.
Qed.

(** What the [catch] block leaves behind. *)
Lemma initBlocklistConstruction_catch_spec (e : JsError) (s : State) :
  initBlocklistConstruction_catch e s
  = ({| heap := heap s;
        this := set_construction false
                  (set_exception "initBlocklistConstruction" (message e) (this s)) |},
     errResponse "initBlocklistConstruction" e).
Proof. reflexivity. Qed.

Lemma resumed_failure (config : BasicConfig) (settled : JsError + list Payload)
    (e : JsError) (s : State) :
  settled = inl e \/
  (exists downloads, settled = inr downloads /\
     createBlocklistFilter (downloads !! 1%nat) (downloads !! 2%nat)
       (downloads !! 0%nat) config = inl e) ->
  exists w,
    initBlocklistConstruction_resumed config settled s
    = ({| heap := heap s; this := w |}, errResponse "initBlocklistConstruction" e)
    /\ blocklistFilter w = blocklistFilter (this s)
    /\ isBlocklistUnderConstruction w = false
    /\ startTime w = startTime (this s)
    /\ exceptionFrom w = "initBlocklistConstruction"
    /\ exceptionStack w = message e.
Proof.
  intros [-> | (downloads & -> & Hb)]; simpl.
  - eexists. split; [reflexivity|]. repeat split.
  - unfold downloadBuildBlocklist_resumed. simpl. rewrite Hb.
    eexists. split; [reflexivity|]. repeat split.
Qed.

Lemma resumed_success (config : BasicConfig) (settled : JsError + list Payload)
    (downloads : list Payload) (t : Trie) (frozen : FrozenTrie) (s : State) :
  settled = inr downloads /\
  createBlocklistFilter (downloads !! 1%nat) (downloads !! 2%nat)
    (downloads !! 0%nat) config = inr (t, frozen) ->
  exists w,
    initBlocklistConstruction_resumed config settled s
    = ({| heap := loadFilter (blocklistFilter (this s)) t frozen config
                    (downloads !! 0%nat) (heap s);
          this := w |}, readyResponse s)
    /\ blocklistFilter w = blocklistFilter (this s)
    /\ isBlocklistUnderConstruction w = false
    /\ startTime w = startTime (this s)
    /\ exceptionFrom w = exceptionFrom (this s)
    /\ exceptionStack w = exceptionStack (this s).
Proof.
  intros [-> Hb]. simpl.
  unfold downloadBuildBlocklist_resumed. simpl. rewrite Hb. simpl.
  eexists. split; [reflexivity|]. repeat split.
Qed.

(** A build attempt fails, with some error, or succeeds. *)
Lemma resumed_cases (config : BasicConfig) (settled : JsError + list Payload) :
  (exists e, settled = inl e \/
     (exists downloads, settled = inr downloads /\
        createBlocklistFilter (downloads !! 1%nat) (downloads !! 2%nat)
          (downloads !! 0%nat) config = inl e)) \/
  (exists downloads t frozen, settled = inr downloads /\
     createBlocklistFilter (downloads !! 1%nat) (downloads !! 2%nat)
       (downloads !! 0%nat) config = inr (t, frozen)).
Proof.
  destruct settled as [e|downloads]; [left; eauto|].
  destruct (createBlocklistFilter (downloads !! 1%nat) (downloads !! 2%nat)
              (downloads !! 0%nat) config) as [e|[t frozen]] eqn:Hb.
  - left. exists e. right. eauto.
  - right. eauto 6.
Qed.

(** The caller of [RethinkModule] takes one of three roles. *)
Lemma RethinkModule_ready (now : Z) (net : Net) (param : Param) (s : State) :
  isBlocklistFilterSetup s = true ->
  RethinkModule now net param s = (s, [], Returned (readyResponse s)).
Proof. intros Hs. unfold RethinkModule. rewrite Hs. reflexivity. Qed.

Lemma RethinkModule_builder (now : Z) (net : Net) (param : Param) (s : State) :
  isBlocklistFilterSetup s = false ->
  isBlocklistUnderConstruction (this s) = false \/
    now - startTime (this s) > workerTimeout param * 2 ->
  RethinkModule now net param s
  = initBlocklistConstruction net now (blocklistUrl param) (latestTimestamp param)
      (tdNodecount param) (tdParts param) s.
Proof.
  intros Hs Hrole. unfold RethinkModule. rewrite Hs.
  destruct Hrole as [-> | Hstale]; [reflexivity|].
  destruct (Z.gtb_spec (now - startTime (this s)) (workerTimeout param * 2)); [|lia].
  rewrite orb_true_r. reflexivity.
Qed.

Lemma RethinkModule_waiter (now : Z) (net : Net) (param : Param) (s : State) :
  isBlocklistFilterSetup s = false ->
  isBlocklistUnderConstruction (this s) = true ->
  now - startTime (this s) <= workerTimeout param * 2 ->
  RethinkModule now net param s = (s, [], waitLoop param 0 s).
Proof.
  intros Hs Hflag Hfresh. unfold RethinkModule. rewrite Hs, Hflag.
  destruct (Z.gtb_spec (now - startTime (this s)) (workerTimeout param * 2)); [lia|].
  reflexivity.
Qed.

Lemma initBlocklistConstruction_spec (net : Net) (when : Z)
    (blocklistUrl latestTimestamp : string) (tdNodecount tdParts : Z) (s : State) :
  initBlocklistConstruction net when blocklistUrl latestTimestamp tdNodecount tdParts s
  = let d := downloadBuildBlocklist net blocklistUrl latestTimestamp tdNodecount tdParts in
    ({| heap := heap s; this := set_startTime when (set_construction true (this s)) |},
     fst (snd d), Suspended (AwaitDownloads (fst d) (snd (snd d)))).
Proof. reflexivity. Qed.

End CoordinatorFacts.

Section SchedulerFacts.
Context `{FilterRepository}.

(** A builder that resumes returns: with the failure envelope, the heap
    untouched and the failure recorded, or with the shared filter loaded
    and the recorded failure left as it was. *)
Lemma resume_builder_cases (config : BasicConfig) (downloads : Promise (list Payload))
    (s : State) :
  exists s' r,
    resume (AwaitDownloads config downloads) s = (s', Returned r)
    /\ blocklistFilter (this s') = blocklistFilter (this s)
    /\ isBlocklistUnderConstruction (this s') = false
    /\ startTime (this s') = startTime (this s)
    /\ ((exists e, r = errResponse "initBlocklistConstruction" e
                   /\ heap s' = heap s
                   /\ exceptionFrom (this s') = "initBlocklistConstruction"
                   /\ exceptionStack (this s') = message e)
        \/ (r = readyResponse s
            /\ isBlocklistFilterSetup s' = true
            /\ exceptionFrom (this s') = exceptionFrom (this s)
            /\ exceptionStack (this s') = exceptionStack (this s))).
Proof.
  unfold resume.
  destruct (resumed_cases config (outcome downloads))
    as [[e Hfail] | (dl & t & frozen & Hok)].
  - destruct (resumed_failure config _ e s Hfail) as (w & -> & Ha & Hf & Ht & Hfrom & Hstack).
    do 2 eexists. split; [reflexivity|]. cbn [this heap].
    repeat split; try assumption. left. exists e. repeat split; assumption.
  - destruct (resumed_success config _ dl t frozen s Hok) as (w & -> & Ha & Hf & Ht & Hfrom & Hstack).
    do 2 eexists. split; [reflexivity|]. cbn [this heap].
    repeat split; try assumption. right. repeat split; try assumption.
    apply isBlocklistFilterSetup_loadFilter. exact Ha.
Qed.

Lemma waitLoop_cases (param : Param) (totalWaitms : Z) (s : State) :
  (exists r, waitLoop param totalWaitms s = Returned r) \/
  waitLoop param totalWaitms s = Suspended (AwaitSleep param totalWaitms).
Proof.
  unfold waitLoop. destruct (totalWaitms <? fetchTimeout param); [|eauto].
  destruct (isBlocklistFilterSetup s); eauto.
Qed.

(** No turn of the event loop moves the wrapper to another filter object,
    and none takes a ready filter back. *)
Lemma step_keeps_filter (sys sys' : System) (ev : Event) (o : Observation) :
  step sys ev = Some (sys', o) ->
  blocklistFilter (this (fst sys')) = blocklistFilter (this (fst sys))
  /\ (isBlocklistFilterSetup (fst sys) = true -> isBlocklistFilterSetup (fst sys') = true).
Proof.
  destruct sys as [s tasks]. destruct ev as [now net param | i]; cbn [step fst].
  - unfold RethinkModule. destruct (isBlocklistFilterSetup s) eqn:Hs.
    + intros [= <- <-]. cbn [fst]. split; [reflexivity | intros _; exact Hs].
    + destruct (_ || _).
      * rewrite initBlocklistConstruction_spec. cbn zeta.
        intros [= <- <-]. cbn [fst this]. split; [reflexivity | discriminate].
      * destruct (waitLoop param 0 s); intros [= <- <-]; cbn [fst];
          (split; [reflexivity | discriminate]).
  - destruct (tasks !! i) as [k|]; [|discriminate].
    destruct k as [config downloads | param totalWaitms].
    + destruct (resume_builder_cases config downloads s)
        as (s' & r & -> & Ha & _ & _ & [(e & _ & Hheap & _) | (_ & Hready & _)]);
        intros [= <- <-]; cbn [fst]; (split; [exact Ha|]); intros Hs.
      * unfold isBlocklistFilterSetup in *. rewrite Hheap, Ha. exact Hs.
      * exact Hready.
    + cbn [resume].
      destruct (waitLoop param (totalWaitms + waitms) s); intros [= <- <-]; cbn [fst];
        (split; [reflexivity | tauto]).
Qed.

Lemma run_keeps_filter (evs : list Event) (sys sys' : System) (os : list Observation) :
  run sys evs = Some (sys', os) ->
  blocklistFilter (this (fst sys')) = blocklistFilter (this (fst sys))
  /\ (isBlocklistFilterSetup (fst sys) = true -> isBlocklistFilterSetup (fst sys') = true).
Proof.
  revert sys os. induction evs as [|ev evs IH]; intros sys os; cbn [run].
  - intros [= <- <-]. tauto.
  - destruct (step sys ev) as [[sys1 o]|] eqn:Hstep; [|discriminate].
    destruct (run sys1 evs) as [[sys2 os2]|] eqn:Hrun; [|discriminate].
    intros [= <- <-].
    destruct (step_keeps_filter _ _ _ _ Hstep) as [Ha Hr].
    destruct (IH _ _ Hrun) as [Ha' Hr'].
    split; [congruence | tauto].
Qed.

Lemma waitLoop_returned (param : Param) (totalWaitms : Z) (s : State) (r : Response.t) :
  waitLoop param totalWaitms s = Returned r ->
  (isBlocklistFilterSetup s = true /\ r = readyResponse s)
  \/ r = timeoutResponse totalWaitms s.
Proof.
  unfold waitLoop. destruct (totalWaitms <? fetchTimeout param).
  - destruct (isBlocklistFilterSetup s); [|discriminate].
    intros [= <-]. left. split; reflexivity.
  - intros [= <-]. right. reflexivity.
Qed.

(** An envelope that carries a filter carries the wrapper's own filter
    object, and that filter is ready. *)
Lemma returned_filter_is_ready (sys sys' : System) (ev : Event) (o : Observation)
    (r : Response.t) (a : nat) :
  step sys ev = Some (sys', o) ->
  returned o = Some r ->
  Response.blocklistFilter (Response.data r) = Some a ->
  isBlocklistFilterSetup (fst sys') = true /\ a = blocklistFilter (this (fst sys')).
Proof.
  destruct sys as [s tasks]. destruct ev as [now net param | i]; cbn [step].
  - unfold RethinkModule. destruct (isBlocklistFilterSetup s) eqn:Hs.
    + intros [= <- <-]. cbn. intros [= <-] [= <-]. split; [exact Hs | reflexivity].
    + destruct (_ || _).
      * rewrite initBlocklistConstruction_spec. cbn zeta. intros [= <- <-]. discriminate.
      * destruct (waitLoop param 0 s) as [k|r0] eqn:Hw; intros [= <- <-]; [discriminate|].
        cbn. intros [= <-].
        destruct (waitLoop_returned _ _ _ _ Hw) as [[Hr _] | ->]; [congruence | discriminate].
  - destruct (tasks !! i) as [k|]; [|discriminate].
    destruct k as [config downloads | param totalWaitms].
    + destruct (resume_builder_cases config downloads s)
        as (s' & r0 & -> & Ha & _ & _ & [(e & -> & _) | (-> & Hready & _)]);
        intros [= <- <-]; cbn; intros [= <-]; [discriminate|].
      intros [= <-]. split; [exact Hready | symmetry; exact Ha].
    + cbn [resume].
      destruct (waitLoop param (totalWaitms + waitms) s) as [k|r0] eqn:Hw;
        intros [= <- <-]; [discriminate|].
      cbn. intros [= <-].
      destruct (waitLoop_returned _ _ _ _ Hw) as [[Hr ->] | ->]; [|discriminate].
      intros [= <-]. split; [exact Hr | reflexivity].
Qed.

(** C1. Once a call has returned the filter, every later call, whatever
    its parameters and whatever ran in between, returns in its own turn,
    without a fetch and without a change of state, the envelope with
    [isException = false] whose [data.blocklistFilter] is that same filter
    object, the one the wrapper holds, and the filter stays ready. *)
Theorem acquire_idempotent_once_ready
    (sys0 sys sys' : System) (ev : Event) (o : Observation) (r : Response.t) (a : nat)
    (evs : list Event) (os : list Observation) :
  step sys0 ev = Some (sys, o) ->
  returned o = Some r ->
  Response.blocklistFilter (Response.data r) = Some a ->
  run sys evs = Some (sys', os) ->
  forall (now : Z) (net : Net) (param : Param),
    step sys' (Call now net param)
    = Some (sys', {| requests := [];
                     returned := Some (Response.mk false "" ""
                                         (Response.mkData (Some a))) |})
    /\ isBlocklistFilterSetup (fst sys') = true
    /\ blocklistFilter (this (fst sys')) = a.
Proof.
  intros Hstep Hret Hdata Hrun now net param.
  destruct (returned_filter_is_ready _ _ _ _ _ _ Hstep Hret Hdata) as [Hready ->].
  destruct (run_keeps_filter _ _ _ _ Hrun) as [Ha Hr].
  specialize (Hr Hready). split; [|split; [exact Hr | exact Ha]].
  destruct sys' as [s' tasks']. cbn [fst] in *. cbn [step].
  rewrite (RethinkModule_ready now net param s' Hr).
  unfold readyResponse. rewrite Ha. reflexivity.
Qed.

(** The turn of a caller that takes the builder role. *)
Lemma step_builder (s : State) (tasks : list Task) (now : Z) (net : Net) (param : Param) :
  isBlocklistFilterSetup s = false ->
  isBlocklistUnderConstruction (this s) = false \/
    now - startTime (this s) > workerTimeout param * 2 ->
  let d := downloadBuildBlocklist net (blocklistUrl param) (latestTimestamp param)
             (tdNodecount param) (tdParts param) in
  let s' := {| heap := heap s;
               this := set_startTime now (set_construction true (this s)) |} in
  step (s, tasks) (Call now net param)
  = Some ((s', tasks ++ [AwaitDownloads (fst d) (snd (snd d))]),
          {| requests := fst (snd d); returned := None |})
  /\ buildState s' = Building now.
Proof.
  intros Hs Hrole d s'. split.
  - cbn [step]. rewrite (RethinkModule_builder now net param s Hs Hrole).
    rewrite initBlocklistConstruction_spec. reflexivity.
  - unfold s', buildState.
    rewrite (isBlocklistFilterSetup_frame s) by reflexivity. rewrite Hs. reflexivity.
Qed.

(** The requests of the assembly, spelled out. *)
Lemma makeTd_requests_explicit (net : Net) (baseurl : string) (n : Z) :
  fst (makeTd net baseurl n)
  = if n <=? -1 then [baseurl +:+ "/td.txt"]
    else List.map (tdPartUrl baseurl) (seqZ 0 (n + 1)).
Proof.
  destruct (Z.leb_spec n (-1)) as [Hneg|Hpos].
  - unfold makeTd. destruct (Z.leb_spec n (-1)); [reflexivity | lia].
  - rewrite (makeTd_split net baseurl n ltac:(lia)). reflexivity.
Qed.

(** C4. A caller that finds the filter not ready and either no build in
    progress or one that started more than twice [workerTimeout] ago takes
    the builder role and runs the whole sequence. In its own turn the
    state becomes Building with the current time as start time, the
    fetches of the file tags, of the trie ([/td.txt], or the parts
    [/td00.txt] onwards) and of the rank directory are issued, and the call
    is suspended on their join, not on a sleep. When the join settles the
    call resumes: with the three payloads in and the builder returning, the
    filter object is loaded with the builder's result, the state is Ready,
    the flag is cleared and the caller gets the filter; when a leg was
    rejected or the builder throws, the flag is cleared and the caller gets
    the failure envelope. A call at [T0 + 2W + eps], [eps > 0], against a
    build started at [T0] is such a caller. *)
Theorem idle_or_stale_caller_builds
    (s : State) (tasks : list Task) (now : Z) (net : Net) (param : Param) :
  isBlocklistFilterSetup s = false ->
  let baseurl := blocklistUrl param +:+ latestTimestamp param in
  let config := {| nodecount := orZ (tdNodecount param) (-1);
                   tdparts := orZ (tdParts param) (-1) |} in
  let leg0 := snd (fileFetch net (baseurl +:+ "/filetag.json") "json") in
  let leg1 := snd (makeTd net baseurl (tdparts config)) in
  let leg2 := snd (fileFetch net (baseurl +:+ "/rd.txt") "buffer") in
  let k := AwaitDownloads config (Promise_all [leg0; leg1; leg2]) in
  let s' := {| heap := heap s;
               this := set_startTime now (set_construction true (this s)) |} in
  let built :=
    step (s, tasks) (Call now net param)
    = Some ((s', tasks ++ [k]),
            {| requests :=
                 [baseurl +:+ "/filetag.json"]
                 ++ (if tdparts config <=? -1 then [baseurl +:+ "/td.txt"]
                     else List.map (tdPartUrl baseurl) (seqZ 0 (tdparts config + 1)))
                 ++ [baseurl +:+ "/rd.txt"];
               returned := None |})
    /\ buildState s' = Building now
    /\ (forall (s1 : State) (tasks1 : list Task) (i : nat)
               (d0 d1 d2 : Payload) (t : Trie) (frozen : FrozenTrie),
          tasks1 !! i = Some k ->
          outcome leg0 = inr d0 -> outcome leg1 = inr d1 -> outcome leg2 = inr d2 ->
          createBlocklistFilter (Some d1) (Some d2) (Some d0) config = inr (t, frozen) ->
          exists w,
            let loaded :=
              {| heap := <[blocklistFilter (this s1) :=
                             {| filter_t := Some t; filter_ft := Some frozen;
                                filter_blocklistBasicConfig := Some config;
                                filter_blocklistFileTag := Some d0 |}]> (heap s1);
                 this := w |} in
            step (s1, tasks1) (Settle i)
            = Some ((loaded, delete i tasks1),
                    {| requests := [];
                       returned := Some (Response.mk false "" ""
                         (Response.mkData (Some (blocklistFilter (this s1))))) |})
            /\ blocklistFilter w = blocklistFilter (this s1)
            /\ isBlocklistUnderConstruction w = false
            /\ buildState loaded = Ready)
    /\ (forall (s1 : State) (tasks1 : list Task) (i : nat) (e : JsError),
          tasks1 !! i = Some k ->
          outcome (Promise_all [leg0; leg1; leg2]) = inl e
          \/ (exists d0 d1 d2,
                outcome leg0 = inr d0 /\ outcome leg1 = inr d1 /\ outcome leg2 = inr d2
                /\ createBlocklistFilter (Some d1) (Some d2) (Some d0) config = inl e) ->
          exists w,
            step (s1, tasks1) (Settle i)
            = Some (({| heap := heap s1; this := w |}, delete i tasks1),
                    {| requests := [];
                       returned := Some (errResponse "initBlocklistConstruction" e) |})
            /\ isBlocklistUnderConstruction w = false) in
  (isBlocklistUnderConstruction (this s) = false \/
     now - startTime (this s) > 2 * workerTimeout param -> built)
  /\ (forall T0 W eps,
        startTime (this s) = T0 -> workerTimeout param = W -> 0 < eps ->
        now = T0 + 2 * W + eps -> built).
Proof.
  intros Hs baseurl config leg0 leg1 leg2 k s' built.
  assert (Hmain : isBlocklistUnderConstruction (this s) = false \/
                  now - startTime (this s) > 2 * workerTimeout param -> built).
  { intros Hrole. unfold built.
    assert (Hrole' : isBlocklistUnderConstruction (this s) = false \/
                     now - startTime (this s) > workerTimeout param * 2)
      by (destruct Hrole; [left; assumption | right; lia]).
    destruct (step_builder s tasks now net param Hs Hrole') as [Hstep Hstate].
    split; [|split; [exact Hstate|split]].
    - rewrite Hstep. rewrite downloadBuildBlocklist_requests.
      rewrite makeTd_requests_explicit. reflexivity.
    - intros s1 tasks1 i d0 d1 d2 t frozen Hi H0' H1' H2' Hb.
      assert (Hjoin : outcome (Promise_all [leg0; leg1; leg2]) = inr [d0; d1; d2])
        by (apply Promise_all_fulfilled; repeat constructor; assumption).
      destruct (resumed_success config (inr [d0; d1; d2]) [d0; d1; d2] t frozen s1
                  (conj eq_refl Hb)) as (w & Hres & Ha & Hf & _).
      exists w. cbn zeta. split; [|split; [exact Ha | split; [exact Hf|]]].
      + cbn [step]. rewrite Hi. unfold k. cbn [resume]. rewrite Hjoin, Hres.
        reflexivity.
      + apply buildState_Ready.
        apply (isBlocklistFilterSetup_loadFilter (blocklistFilter (this s1))). exact Ha.
    - intros s1 tasks1 i e Hi Hfail.
      assert (Hfail' :
        outcome (Promise_all [leg0; leg1; leg2]) = inl e \/
        (exists downloads, outcome (Promise_all [leg0; leg1; leg2]) = inr downloads /\
           createBlocklistFilter (downloads !! 1%nat) (downloads !! 2%nat)
             (downloads !! 0%nat) config = inl e)).
      { destruct Hfail as [He | (d0 & d1 & d2 & H0' & H1' & H2' & Hb)]; [left; exact He|].
        right. exists [d0; d1; d2]. split; [|exact Hb].
        apply Promise_all_fulfilled; repeat constructor; assumption. }
      destruct (resumed_failure config _ e s1 Hfail') as (w & Hres & _ & Hf & _).
      exists w. split; [|exact Hf].
      cbn [step]. rewrite Hi. unfold k. cbn [resume]. rewrite Hres. reflexivity. }
  split; [exact Hmain|].
  intros T0 W eps HT0 HW Heps Hnow. apply Hmain. right. lia.
Qed.

End SchedulerFacts.

Section WaiterFacts.
Context `{FilterRepository}.

(** The loop as a whole is the loop turn of the scheduler, iterated. *)
Lemma poll_turn (obs : nat -> State) (param : Param) (k : nat) (totalWaitms : Z) :
  (forall r, waitLoop param totalWaitms (obs k) = Returned r ->
             snd (poll obs param k totalWaitms) = r)
  /\ (forall p t, waitLoop param totalWaitms (obs k) = Suspended (AwaitSleep p t) ->
        poll obs param k totalWaitms
        = (totalWaitms :: fst (poll obs p (S k) (t + waitms)),
           snd (poll obs p (S k) (t + waitms)))).
Proof.
  unfold waitLoop. simp poll.
  destruct (Z_lt_dec totalWaitms (fetchTimeout param)) as [Hlt|Hge]; simpl.
  - destruct (Z.ltb_spec totalWaitms (fetchTimeout param)); [|lia].
    destruct (isBlocklistFilterSetup (obs k)); split.
    + intros r [= <-]. reflexivity.
    + discriminate.
    + discriminate.
    + intros p t [= <- <-]. reflexivity.
  - destruct (Z.ltb_spec totalWaitms (fetchTimeout param)); [lia|].
    split; [intros r [= <-]; reflexivity | discriminate].
Qed.

(** A waiter that never finds the filter ready polls at [totalWaitms],
    [totalWaitms + 50], ... while that is below [fetchTimeout], and then
    returns the timeout envelope made from the state of that moment. *)
Lemma poll_never_ready (obs : nat -> State) (param : Param) (k : nat) (totalWaitms : Z) :
  (forall j, isBlocklistFilterSetup (obs j) = false) ->
  exists N : nat,
    poll obs param k totalWaitms
    = (List.map (fun j => totalWaitms + waitms * Z.of_nat j) (seq 0 N),
       timeoutResponse (totalWaitms + waitms * Z.of_nat N) (obs (k + N)%nat))
    /\ fetchTimeout param <= totalWaitms + waitms * Z.of_nat N
    /\ (forall j, (j < N)%nat -> totalWaitms + waitms * Z.of_nat j < fetchTimeout param).
Proof.
  intros Hnever.
  remember (Z.to_nat (fetchTimeout param - totalWaitms)) as m eqn:Hm.
  revert k totalWaitms Hm.
  induction m as [m IH] using lt_wf_ind. intros k totalWaitms Hm.
  simp poll.
  destruct (Z_lt_dec totalWaitms (fetchTimeout param)) as [Hlt|Hge]; simpl.
  - rewrite Hnever.
    destruct (IH (Z.to_nat (fetchTimeout param - (totalWaitms + waitms)))
                ltac:(unfold waitms; lia) (S k) (totalWaitms + waitms) eq_refl)
      as (N & -> & Hbudget & Hpolls).
    exists (S N). cbn [fst snd]. split; [|split].
    + f_equal.
      * cbn [seq List.map]. f_equal; [lia|].
        rewrite <- seq_shift, List.map_map.
        apply List.map_ext. intros j. lia.
      * f_equal; [lia | f_equal; lia].
    + lia.
    + intros [|j] Hj; [lia|]. specialize (Hpolls j ltac:(lia)). lia.
  - exists 0%nat. cbn [seq List.map]. split; [|split].
    + f_equal. f_equal; [lia | f_equal; lia].
    + lia.
    + intros j Hj. lia.
Qed.

(** The same when the filter is not ready at the polls the waiter makes,
    the turns whose instant is within the budget; what the state is at any
    other turn does not matter. *)
Lemma poll_never_observed (obs : nat -> State) (param : Param) (k : nat) (totalWaitms : Z) :
  (forall j, totalWaitms + waitms * Z.of_nat j < fetchTimeout param ->
             isBlocklistFilterSetup (obs (k + j)%nat) = false) ->
  exists N : nat,
    poll obs param k totalWaitms
    = (List.map (fun j => totalWaitms + waitms * Z.of_nat j) (seq 0 N),
       timeoutResponse (totalWaitms + waitms * Z.of_nat N) (obs (k + N)%nat))
    /\ fetchTimeout param <= totalWaitms + waitms * Z.of_nat N
    /\ (forall j, (j < N)%nat -> totalWaitms + waitms * Z.of_nat j < fetchTimeout param).
Proof.
  remember (Z.to_nat (fetchTimeout param - totalWaitms)) as m eqn:Hm.
  revert k totalWaitms Hm.
  induction m as [m IH] using lt_wf_ind. intros k totalWaitms Hm Hnever.
  simp poll.
  destruct (Z_lt_dec totalWaitms (fetchTimeout param)) as [Hlt|Hge]; simpl.
  - specialize (Hnever 0%nat ltac:(lia)) as Hs0. rewrite Nat.add_0_r in Hs0. rewrite Hs0.
    destruct (IH (Z.to_nat (fetchTimeout param - (totalWaitms + waitms)))
                ltac:(unfold waitms; lia) (S k) (totalWaitms + waitms) eq_refl)
      as (N & -> & Hbudget & Hpolls).
    { intros j Hj. specialize (Hnever (S j) ltac:(lia)).
      replace (S k + j)%nat with (k + S j)%nat by lia. exact Hnever. }
    exists (S N). cbn [fst snd]. split; [|split].
    + f_equal.
      * cbn [seq List.map]. f_equal; [lia|].
        rewrite <- seq_shift, List.map_map.
        apply List.map_ext. intros j. lia.
      * f_equal; [lia | f_equal; lia].
    + lia.
    + intros [|j] Hj; [lia|]. specialize (Hpolls j ltac:(lia)). lia.
  - exists 0%nat. cbn [seq List.map]. split; [|split].
    + f_equal. f_equal; [lia | f_equal; lia].
    + lia.
    + intros j Hj. lia.
Qed.

Lemma orString_empty (b : string) : orString "" b = b.
Proof. reflexivity. Qed.

Lemma orString_set (a b : string) : a <> "" -> orString a b = a.
Proof. intros Ha. unfold orString. destruct a; [contradiction | reflexivity]. Qed.

(** C3, as amended. A caller that finds a build in progress that is not
    stale issues no fetch and changes nothing; when it finds the filter
    not ready at any of the polls it makes, one every 50 units while
    [totalWaitms] is below [fetchTimeout] (readiness is not looked at once
    the budget is used up), it then returns an envelope with
    [isException = true] and no filter. Its [exceptionStack] is the stack
    on record in the wrapper at that moment, whenever that was recorded,
    and only when none is on record the timeout message with the elapsed
    wait, which is at least [fetchTimeout]; the same holds, separately,
    for [exceptionFrom] and the default origin. *)
Theorem waiter_times_out
    (s : State) (now : Z) (net : Net) (param : Param) (obs : nat -> State) :
  isBlocklistFilterSetup s = false ->
  isBlocklistUnderConstruction (this s) = true ->
  now - startTime (this s) <= 2 * workerTimeout param ->
  obs 0%nat = s ->
  (forall k, waitms * Z.of_nat k < fetchTimeout param ->
             isBlocklistFilterSetup (obs k) = false) ->
  RethinkModule now net param s = (s, [], waitLoop param 0 s)
  /\ exists N : nat,
       let T := waitms * Z.of_nat N in
       let r := snd (poll obs param 0 0) in
       fst (poll obs param 0 0) = List.map (fun j => waitms * Z.of_nat j) (seq 0 N)
       /\ (forall j, (j < N)%nat -> waitms * Z.of_nat j < fetchTimeout param)
       /\ fetchTimeout param <= T
       /\ Response.isException r = true
       /\ Response.data r = Response.mkData None
       /\ Response.exceptionStack r
          = orString (exceptionStack (this (obs N)))
                     ("blocklist-filter timeout " +:+ toString T)
       /\ Response.exceptionFrom r
          = orString (exceptionFrom (this (obs N))) "blocklistWrapper.js"
       /\ (exceptionStack (this (obs N)) = "" ->
           Response.exceptionStack r = "blocklist-filter timeout " +:+ toString T)
       /\ (exceptionStack (this (obs N)) <> "" ->
           Response.exceptionStack r = exceptionStack (this (obs N)))
       /\ (exceptionFrom (this (obs N)) = "" ->
           Response.exceptionFrom r = "blocklistWrapper.js")
       /\ (exceptionFrom (this (obs N)) <> "" ->
           Response.exceptionFrom r = exceptionFrom (this (obs N))).
Proof.
  intros Hs Hflag Hfresh Hobs Hnever.
  split; [apply RethinkModule_waiter; [assumption | assumption | lia]|].
  destruct (poll_never_observed obs param 0 0) as (N & Hpoll & Hbudget & Hpolls).
  { intros j Hj. cbn [Nat.add]. apply Hnever. lia. }
  exists N. cbn zeta. rewrite Hpoll. cbn [fst snd]. rewrite !Z.add_0_l in *.
  cbn [Nat.add]. unfold timeoutResponse. cbn.
  repeat split.
  - exact Hpolls.
  - exact Hbudget.
  - intros ->. reflexivity.
  - intros Hset. apply orString_set. exact Hset.
  - intros ->. reflexivity.
  - intros Hset. apply orString_set. exact Hset.
Qed.




End WaiterFacts.

Section BuildFacts.
Context `{FilterRepository}.

(** A rejected part rejects the assembly. *)
Lemma makeTd_rejected (net : Net) (baseurl : string) (n i : Z) :
  0 <= i <= n ->
  rejected (snd (fileFetch net (tdPartUrl baseurl i) "buffer")) = true ->
  rejected (snd (makeTd net baseurl n)) = true.
Proof.
  intros Hi Hrej. rewrite makeTd_split by lia. cbn [snd]. unfold rejected. cbn [outcome].
  destruct (Promise_all_rejected
    (List.map snd (List.map (fun i => fileFetch net (tdPartUrl baseurl i) "buffer")
                            (seqZ 0 (n + 1))))) as [e He].
  - apply Exists_exists.
    exists (snd (fileFetch net (tdPartUrl baseurl i) "buffer")). split; [|exact Hrej].
    rewrite List.map_map. apply list_elem_of_fmap. exists i. split; [reflexivity|].
    apply elem_of_seqZ. lia.
  - rewrite He. reflexivity.
Qed.

(** Fail fast on any leg of the download. *)
Lemma downloadBuildBlocklist_rejected (net : Net)
    (blocklistUrl latestTimestamp : string) (tdNodecount tdParts : Z) :
  let baseurl := blocklistUrl +:+ latestTimestamp in
  rejected (snd (fileFetch net (baseurl +:+ "/filetag.json") "json")) = true
  \/ rejected (snd (makeTd net baseurl (orZ tdParts (-1)))) = true
  \/ rejected (snd (fileFetch net (baseurl +:+ "/rd.txt") "buffer")) = true ->
  exists e,
    outcome (snd (snd (downloadBuildBlocklist net blocklistUrl latestTimestamp
                         tdNodecount tdParts))) = inl e.
Proof.
  intros baseurl Hleg. unfold downloadBuildBlocklist. cbn [snd tdparts].
  apply Promise_all_rejected.
  destruct Hleg as [Hleg | [Hleg | Hleg]].
  - left. exact Hleg.
  - right. left. exact Hleg.
  - right. right. left. exact Hleg.
Qed.

(** C5, as amended. No failure of a build attempt escapes: whatever the
    downloads settled to, the builder returns an envelope. When a fetch or
    the assembly was rejected, or the filter builder threw, that envelope
    has [isException] set, names [initBlocklistConstruction] as origin,
    carries the diagnostic as stack and has no filter; the
    under-construction flag is cleared and the filter object is left as it
    was. When the filter is not ready then, the state is Idle again and
    the next caller starts a new build at once; when it is ready, loaded
    meanwhile by a build that this one had overridden, the state stays
    Ready and the next caller is handed the filter and starts no build.
    One rejected leg is enough to reject the download. *)
Theorem failed_build_is_reported_and_reset
    (config : BasicConfig) (settled : JsError + list Payload) (e : JsError) (s : State) :
  settled = inl e \/
  (exists downloads, settled = inr downloads /\
     createBlocklistFilter (downloads !! 1%nat) (downloads !! 2%nat)
       (downloads !! 0%nat) config = inl e) ->
  let out := initBlocklistConstruction_resumed config settled s in
  snd out = errResponse "initBlocklistConstruction" e
  /\ Response.isException (snd out) = true
  /\ Response.exceptionFrom (snd out) = "initBlocklistConstruction"
  /\ Response.exceptionStack (snd out) = message e
  /\ Response.blocklistFilter (Response.data (snd out)) = None
  /\ isBlocklistUnderConstruction (this (fst out)) = false
  /\ heap (fst out) = heap s
  /\ blocklistFilter (this (fst out)) = blocklistFilter (this s)
  /\ (forall tasks i downloads,
        tasks !! i = Some (AwaitDownloads config downloads) ->
        outcome downloads = settled ->
        step (s, tasks) (Settle i)
        = Some ((fst out, delete i tasks), {| requests := []; returned := Some (snd out) |}))
  /\ (isBlocklistFilterSetup s = false ->
      buildState (fst out) = Idle
      /\ forall tasks now net param,
           exists config' downloads' s'',
             step (fst out, tasks) (Call now net param)
             = Some ((s'', tasks ++ [AwaitDownloads config' downloads']),
                     {| requests :=
                          fst (snd (downloadBuildBlocklist net (blocklistUrl param)
                                      (latestTimestamp param) (tdNodecount param)
                                      (tdParts param)));
                        returned := None |})
             /\ buildState s'' = Building now)
  /\ (isBlocklistFilterSetup s = true ->
      buildState (fst out) = Ready
      /\ forall tasks now net param,
           step (fst out, tasks) (Call now net param)
           = Some ((fst out, tasks),
                   {| requests := [];
                      returned := Some (Response.mk false "" ""
                        (Response.mkData (Some (blocklistFilter (this s))))) |}))
  /\ (forall net blocklistUrl latestTimestamp tdNodecount tdParts,
        rejected (snd (fileFetch net ((blocklistUrl +:+ latestTimestamp)
                                        +:+ "/filetag.json") "json")) = true
        \/ rejected (snd (makeTd net (blocklistUrl +:+ latestTimestamp)
                            (orZ tdParts (-1)))) = true
        \/ rejected (snd (fileFetch net ((blocklistUrl +:+ latestTimestamp)
                                           +:+ "/rd.txt") "buffer")) = true ->
        exists e',
          outcome (snd (snd (downloadBuildBlocklist net blocklistUrl latestTimestamp
                               tdNodecount tdParts))) = inl e').
Proof.
  intros Hfail out.
  destruct (resumed_failure config settled e s Hfail)
    as (w & Hout & Ha & Hflag & Ht & Hfrom & Hstack).
  subst out. rewrite Hout. cbn [fst snd heap this].
  repeat match goal with |- _ /\ _ => split end; try reflexivity; try assumption.
  - intros tasks i downloads Hi Hd. cbn [step]. rewrite Hi. cbn [resume].
    rewrite Hd, Hout. reflexivity.
  - intros Hs.
    assert (Hs' : isBlocklistFilterSetup {| heap := heap s; this := w |} = false)
      by (rewrite isBlocklistFilterSetup_frame; assumption).
    split.
    + unfold buildState. rewrite Hs'. cbn [this]. rewrite Hflag. reflexivity.
    + intros tasks now net param.
      destruct (step_builder {| heap := heap s; this := w |} tasks now net param Hs'
                  (or_introl Hflag)) as [Hstep Hstate].
      do 3 eexists. split; [exact Hstep | exact Hstate].
  - intros Hs.
    assert (Hs' : isBlocklistFilterSetup {| heap := heap s; this := w |} = true)
      by (rewrite isBlocklistFilterSetup_frame; assumption).
    split; [apply buildState_Ready; exact Hs'|].
    intros tasks now net param. cbn [step].
    rewrite (RethinkModule_ready now net param _ Hs').
    unfold readyResponse. cbn [this]. rewrite Ha. reflexivity.
  - intros net blocklistUrl latestTimestamp tdNodecount tdParts.
    apply (downloadBuildBlocklist_rejected net blocklistUrl latestTimestamp tdNodecount tdParts).
Qed.

End BuildFacts.

(** ** The build state machine *)

Section StateMachine.
Context `{FilterRepository}.

Lemma buildsInFlight_app (tasks : list Task) (k : Task) :
  buildsInFlight (tasks ++ [k]) = (buildsInFlight tasks + builderCount k)%nat.
Proof.
  unfold buildsInFlight, builderCount. rewrite List.filter_app, length_app.
  simpl. destruct (isBuilder k); reflexivity.
Qed.

Lemma buildsInFlight_delete (tasks : list Task) (i : nat) (k : Task) :
  tasks !! i = Some k ->
  (buildsInFlight (delete i tasks) + builderCount k)%nat = buildsInFlight tasks.
Proof.
  unfold buildsInFlight, builderCount.
  revert i. induction tasks as [|k0 tasks IH]; intros [|i]; simpl; try discriminate.
  - intros [= ->]. destruct (isBuilder k); simpl; lia.
  - intros Hi. specialize (IH i Hi). destruct (isBuilder k0); simpl; lia.
Qed.

Lemma buildsInFlight_insert (tasks : list Task) (i : nat) (k k' : Task) :
  tasks !! i = Some k ->
  (buildsInFlight (<[i := k']> tasks) + builderCount k)%nat
  = (buildsInFlight tasks + builderCount k')%nat.
Proof.
  unfold buildsInFlight, builderCount.
  revert i. induction tasks as [|k0 tasks IH]; intros [|i]; simpl; try discriminate.
  - intros [= ->]. destruct (isBuilder k), (isBuilder k'); simpl; lia.
  - intros Hi. specialize (IH i Hi). destruct (isBuilder k0); simpl; lia.
Qed.

Lemma oneBuild_initial : oneBuild initial.
Proof. split; [reflexivity | intros _; reflexivity]. Qed.

(** One turn without override: the invariant is kept, and the build state
    stays, or goes from Idle to Building, or from Building to Ready or
    Idle; the filter object changes only on the way to Ready. *)
Lemma step_oneBuild (sys sys' : System) (ev : Event) (o : Observation) :
  oneBuild sys ->
  staleOverride (fst sys) ev = false ->
  step sys ev = Some (sys', o) ->
  oneBuild sys'
  /\ ((buildState (fst sys') = buildState (fst sys) /\ heap (fst sys') = heap (fst sys))
      \/ (buildState (fst sys) = Idle /\ exists t, buildState (fst sys') = Building t)
      \/ (exists t, buildState (fst sys) = Building t
                    /\ (buildState (fst sys') = Ready
                        \/ (buildState (fst sys') = Idle
                            /\ heap (fst sys') = heap (fst sys))))).
Proof.
  destruct sys as [s tasks]. unfold oneBuild. cbn [fst snd].
  intros [Hcount Hflag] Hno Hstep.
  destruct ev as [now net param | i].
  - cbn [staleOverride] in Hno.
    destruct (isBlocklistFilterSetup s) eqn:Hs.
    + cbn [step] in Hstep. rewrite (RethinkModule_ready now net param s Hs) in Hstep.
      injection Hstep as <- <-. cbn [fst snd].
      split; [split; [exact Hcount | intros Hf; specialize (Hflag Hf); discriminate] | auto].
    + destruct (isBlocklistUnderConstruction (this s)) eqn:Hf.
      * cbn [negb andb] in Hno.
        destruct (Z.gtb_spec (now - startTime (this s)) (workerTimeout param * 2));
          [discriminate|].
        cbn [step] in Hstep.
        rewrite (RethinkModule_waiter now net param s Hs Hf ltac:(lia)) in Hstep.
        destruct (waitLoop_cases param 0 s) as [[r Hr] | Hr]; rewrite Hr in Hstep;
          injection Hstep as <- <-; cbn [fst snd].
        -- rewrite Hf. auto.
        -- rewrite buildsInFlight_app, Hf. cbn. split; [split; [lia | auto] | auto].
      * destruct (step_builder s tasks now net param Hs (or_introl Hf)) as [Hb Hstate].
        rewrite Hb in Hstep. injection Hstep as <- <-. cbn [fst snd this heap].
        split.
        -- split; [rewrite buildsInFlight_app; cbn; lia|].
           intros _. rewrite isBlocklistFilterSetup_frame by reflexivity. exact Hs.
        -- right. left. split; [|eauto].
           unfold buildState. rewrite Hs, Hf. reflexivity.
  - cbn [step] in Hstep. destruct (tasks !! i) as [k|] eqn:Hi; [|discriminate].
    pose proof (buildsInFlight_delete tasks i k Hi) as Hdel.
    destruct k as [config downloads | param totalWaitms].
    + destruct (resume_builder_cases config downloads s)
        as (s' & r & Hres & Ha & Hf' & _ & Hcases).
      rewrite Hres in Hstep. injection Hstep as <- <-. cbn [fst snd].
      cbn in Hdel.
      destruct (isBlocklistUnderConstruction (this s)) eqn:Hf; [|lia].
      specialize (Hflag eq_refl).
      split; [split; [rewrite Hf'; lia | rewrite Hf'; discriminate]|].
      right. right. exists (startTime (this s)).
      split; [unfold buildState; rewrite Hflag, Hf; reflexivity|].
      destruct Hcases as [(e & _ & Hheap & _) | (_ & Hready & _)].
      * right. split; [|exact Hheap].
        unfold buildState.
        replace (isBlocklistFilterSetup s') with (isBlocklistFilterSetup s)
          by (unfold isBlocklistFilterSetup; rewrite Hheap, Ha; reflexivity).
        rewrite Hflag, Hf'. reflexivity.
      * left. apply buildState_Ready. exact Hready.
    + cbn [resume] in Hstep. cbn in Hdel.
      destruct (waitLoop_cases param (totalWaitms + waitms) s) as [[r Hr] | Hr];
        rewrite Hr in Hstep; injection Hstep as <- <-; cbn [fst snd].
      * split; [split; [lia | exact Hflag] | auto].
      * pose proof (buildsInFlight_insert tasks i _
                      (AwaitSleep param (totalWaitms + waitms)) Hi) as Hins.
        cbn in Hins. split; [split; [lia | exact Hflag] | auto].
Qed.

Lemma run_oneBuild (evs : list Event) (sys sys' : System) (os : list Observation) :
  oneBuild sys ->
  noStaleOverride sys evs = true ->
  run sys evs = Some (sys', os) ->
  oneBuild sys'.
Proof.
  revert sys os. induction evs as [|ev evs IH]; intros sys os Hinv; cbn [run noStaleOverride].
  - intros _ [= <- <-]. exact Hinv.
  - intros Hno. apply andb_prop in Hno as [Hev Hrest]. apply negb_true_iff in Hev.
    destruct (step sys ev) as [[sys1 o]|] eqn:Hstep; [|discriminate].
    destruct (run sys1 evs) as [[sys2 os2]|] eqn:Hrun; [|discriminate].
    intros [= <- <-].
    destruct (step_oneBuild _ _ _ _ Hinv Hev Hstep) as [Hinv1 _].
    exact (IH _ _ Hinv1 Hrest Hrun).
Qed.

(** C6, as amended. A ready filter is never taken back, by any turn. In a
    run from the initial state in which no call overrides a build in
    progress as stale, at most one build is in flight at every point, one
    is in flight exactly when the state is Building, every turn leaves the
    build state as it is or takes it from Idle to Building or from Building
    to Ready or to Idle, never from Idle to Ready and never out of Ready,
    and a ready filter is not rebuilt: its object is left as it is. A call
    that overrides a build in progress puts one more build in flight and
    makes the state Building with its own time: after the first override
    of a run two builds are in flight. *)
Theorem build_state_transitions :
  (forall (sys sys' : System) ev o,
      step sys ev = Some (sys', o) ->
      buildState (fst sys) = Ready -> buildState (fst sys') = Ready)
  /\ (forall (sys : System) ev,
        staleOverride (fst sys) ev = true ->
        exists now net param (sys' : System) o,
          ev = Call now net param
          /\ step sys ev = Some (sys', o)
          /\ buildsInFlight (snd sys') = S (buildsInFlight (snd sys))
          /\ buildState (fst sys') = Building now)
  /\ (forall evs (sys : System) os ev,
        run initial evs = Some (sys, os) ->
        noStaleOverride initial evs = true ->
        staleOverride (fst sys) ev = true ->
        exists (sys' : System) o,
          step sys ev = Some (sys', o)
          /\ buildsInFlight (snd sys) = 1%nat
          /\ buildsInFlight (snd sys') = 2%nat)
  /\ (forall evs (sys : System) os,
        run initial evs = Some (sys, os) ->
        noStaleOverride initial evs = true ->
        (buildsInFlight (snd sys) <= 1)%nat
        /\ (buildsInFlight (snd sys) = 1%nat <->
            exists t, buildState (fst sys) = Building t)
        /\ forall ev (sys' : System) o,
             staleOverride (fst sys) ev = false ->
             step sys ev = Some (sys', o) ->
             (buildsInFlight (snd sys') <= 1)%nat
             /\ (buildState (fst sys) = Ready -> heap (fst sys') = heap (fst sys))
             /\ (buildState (fst sys') = buildState (fst sys)
                 \/ (buildState (fst sys) = Idle
                     /\ exists t, buildState (fst sys') = Building t)
                 \/ (exists t, buildState (fst sys) = Building t
                               /\ (buildState (fst sys') = Ready
                                   \/ buildState (fst sys') = Idle)))).
Proof.
  assert (Hover : forall (sys : System) ev,
        staleOverride (fst sys) ev = true ->
        exists now net param (sys' : System) o,
          ev = Call now net param
          /\ step sys ev = Some (sys', o)
          /\ buildsInFlight (snd sys') = S (buildsInFlight (snd sys))
          /\ buildState (fst sys') = Building now).
  { intros [s tasks] ev Hev. destruct ev as [now net param | i]; [|discriminate].
    cbn [fst staleOverride] in Hev.
    apply andb_prop in Hev as [Hev Hstale]. apply andb_prop in Hev as [Hs Hf].
    apply negb_true_iff in Hs. apply Z.gtb_lt, Z.lt_gt in Hstale.
    destruct (step_builder s tasks now net param Hs (or_intror Hstale)) as [Hstep Hstate].
    do 5 eexists. split; [reflexivity|]. split; [exact Hstep|]. cbn [fst snd].
    split; [rewrite buildsInFlight_app; cbn; lia | exact Hstate]. }
  split; [|split; [exact Hover|split]].
  - intros sys sys' ev o Hstep Hready. apply buildState_Ready.
    apply buildState_Ready in Hready.
    exact (proj2 (step_keeps_filter _ _ _ _ Hstep) Hready).
  - intros evs sys os ev Hrun Hno Hev.
    pose proof (run_oneBuild evs initial sys os oneBuild_initial Hno Hrun) as [Hcount _].
    destruct (Hover sys ev Hev) as (now & net & param & sys' & o & _ & Hstep & Hinc & _).
    assert (Hf : isBlocklistUnderConstruction (this (fst sys)) = true).
    { destruct ev as [now' net' param' | i]; [|discriminate].
      cbn [staleOverride] in Hev.
      apply andb_prop in Hev as [Hev _]. apply andb_prop in Hev as [_ Hf]. exact Hf. }
    rewrite Hf in Hcount. exists sys', o. split; [exact Hstep|].
    split; [exact Hcount | rewrite Hinc, Hcount; reflexivity].
  - intros evs sys os Hrun Hno.
    pose proof (run_oneBuild evs initial sys os oneBuild_initial Hno Hrun) as [Hcount Hflag].
    assert (Hle : forall (x : System),
              buildsInFlight (snd x)
              = (if isBlocklistUnderConstruction (this (fst x)) then 1 else 0)%nat ->
              (buildsInFlight (snd x) <= 1)%nat).
    { intros x ->. destruct (isBlocklistUnderConstruction (this (fst x))); lia. }
    split; [exact (Hle sys Hcount)|]. split.
    + unfold buildState. rewrite Hcount.
      destruct (isBlocklistUnderConstruction (this (fst sys))) eqn:Hf.
      * rewrite (Hflag eq_refl). split; [eauto | reflexivity].
      * split; [discriminate|]. intros [t Ht].
        destruct (isBlocklistFilterSetup (fst sys)); discriminate.
    + intros ev sys' o Hev Hstep.
      destruct (step_oneBuild sys sys' ev o (conj Hcount Hflag) Hev Hstep)
        as [[Hcount' _] Htrans].
      split; [exact (Hle sys' Hcount')|]. split.
      * intros Hready.
        destruct Htrans as [[_ Hheap] | [[Hidle _] | (t & Hb & _)]];
          [exact Hheap | congruence | congruence].
      * destruct Htrans as [[Hsame _] | [Hstart | (t & Hb & [Hr | [Hi _]])]]; eauto 6.
Qed.

End StateMachine.

(** ** The claims at work on the example platform *)

#[local] Existing Instance Example.artifacts.
#[local] Existing Instance Example.repository.

Lemma run_example (evs : list Event) :
  run initial evs <> None ->
  run initial evs = Some (Example.after evs, Example.observed evs).
Proof.
  unfold Example.after, Example.observed.
  destruct (run initial evs) as [[sys os]|]; [reflexivity | contradiction].
Qed.

(** C1, witness: the first build returns the filter; later a caller with
    other parameters and a dead network gets the same filter at once. *)
Lemma acquire_idempotent_once_ready_witness :
  step Example.building (Settle 0%nat)
  = Some (Example.ready,
          {| requests := [];
             returned := Some (Response.mk false "" "" (Response.mkData (Some 0%nat))) |})
  /\ step Example.ready (Call 9 Example.netDown (Example.withParts 7 Example.request))
     = Some (Example.ready,
             {| requests := [];
                returned := Some (Response.mk false "" "" (Response.mkData (Some 0%nat))) |}).
Proof.
  assert (Hfirst : step Example.building (Settle 0%nat)
    = Some (Example.ready,
            {| requests := [];
               returned := Some (Response.mk false "" "" (Response.mkData (Some 0%nat))) |}))
    by (vm_compute; reflexivity).
  split; [exact Hfirst|].
  apply (acquire_idempotent_once_ready Example.building Example.ready Example.ready
           (Settle 0%nat) _ _ 0%nat
           [Call 3 Example.netDown Example.request]
           [{| requests := []; returned := Some (readyResponse (fst Example.ready)) |}]
           Hfirst eq_refl eq_refl).
  vm_compute. reflexivity.
Defined.

(** C4, witness: a call at 21 against the build started at 0 with a worker
    timeout of 10 starts a build of its own and issues its five fetches. *)
Lemma idle_or_stale_caller_builds_witness :
  isBlocklistFilterSetup (fst Example.building) = false
  /\ buildState {| heap := heap (fst Example.building);
                   this := set_startTime 21
                             (set_construction true (this (fst Example.building))) |}
     = Building 21
  /\ option_map (fun x => requests (snd x))
       (step (fst Example.building, []) (Call 21 Example.netUp Example.request))
     = Some ["https://example.test/blocklists/1638959365361/filetag.json";
             "https://example.test/blocklists/1638959365361/td00.txt";
             "https://example.test/blocklists/1638959365361/td01.txt";
             "https://example.test/blocklists/1638959365361/td02.txt";
             "https://example.test/blocklists/1638959365361/rd.txt"].
Proof.
  assert (Hs : isBlocklistFilterSetup (fst Example.building) = false)
    by (vm_compute; reflexivity).
  split; [exact Hs|].
  destruct (idle_or_stale_caller_builds (fst Example.building) [] 21 Example.netUp
              Example.request Hs) as [_ Hstale].
  destruct (Hstale 0 10 1) as (Hstep & Hstate & _);
    [vm_compute; reflexivity | reflexivity | lia | reflexivity |].
  split; [exact Hstate|]. rewrite Hstep. reflexivity.
Defined.

(** C5, witness: the build on the broken connection. *)
Lemma failed_build_is_reported_and_reset_witness :
  Response.isException
    (snd (initBlocklistConstruction_resumed {| nodecount := 5; tdparts := 2 |}
            (inl (mkError "boom")) (fst Example.building))) = true.
Proof.
  apply (failed_build_is_reported_and_reset {| nodecount := 5; tdparts := 2 |}
           (inl (mkError "boom")) (mkError "boom") (fst Example.building)).
  left. reflexivity.
Defined.

(** C5, counterexample: a build started at 0 is overridden as stale at
    21; the first build succeeds and loads the filter, then the second
    fails: the state after the failed attempt is Ready, not Idle. *)
Lemma failed_build_after_override_ends_ready :
  ~ (forall (A : Artifacts) (F : FilterRepository) (evs : list Event)
            (sys sys' : System) (os : list Observation) (i : nat)
            (config : BasicConfig) (downloads : Promise (list Payload))
            (e : JsError) (o : Observation),
       run initial evs = Some (sys, os) ->
       snd sys !! i = Some (AwaitDownloads config downloads) ->
       outcome downloads = inl e ->
       step sys (Settle i) = Some (sys', o) ->
       buildState (fst sys') = Idle).
Proof.
  intros Hclaim.
  assert (Hrun : run initial Example.overriddenLoaded
                 = Some (Example.after Example.overriddenLoaded,
                         Example.observed Example.overriddenLoaded))
    by (apply run_example; vm_compute; discriminate).
  destruct (step (Example.after Example.overriddenLoaded) (Settle 0%nat))
    as [[sys' o]|] eqn:Hstep; [|vm_compute in Hstep; discriminate].
  assert (Hidle : buildState (fst sys') = Idle).
  { apply (Hclaim Example.artifacts Example.repository Example.overriddenLoaded
             (Example.after Example.overriddenLoaded) sys'
             (Example.observed Example.overriddenLoaded) 0%nat
             {| nodecount := 5; tdparts := 2 |}
             (mkPromise 1%nat (inl (mkError "boom"))) (mkError "boom") o Hrun);
      [vm_compute; reflexivity | reflexivity | exact Hstep]. }
  vm_compute in Hstep. injection Hstep as <- _. vm_compute in Hidle. discriminate.
Qed.

(** C3, witness: a waiter on the first build, which never ends. *)
Lemma waiter_times_out_witness :
  isBlocklistUnderConstruction (this (fst Example.building)) = true
  /\ RethinkModule 5 Example.netUp Example.request (fst Example.building)
     = (fst Example.building, [], waitLoop Example.request 0 (fst Example.building)).
Proof.
  assert (Hflag : isBlocklistUnderConstruction (this (fst Example.building)) = true)
    by (vm_compute; reflexivity).
  split; [exact Hflag|].
  apply (waiter_times_out (fst Example.building) 5 Example.netUp Example.request
           (fun _ => fst Example.building)).
  - vm_compute; reflexivity.
  - exact Hflag.
  - vm_compute. discriminate.
  - reflexivity.
  - intros _ _. vm_compute; reflexivity.
Defined.

(** C3, counterexample: the first build failed with [boom]; a waiter on
    the second build, during whose wait nothing is recorded, returns
    [boom] and not the timeout message. *)
Lemma waiter_returns_earlier_failure :
  ~ (forall (A : Artifacts) (F : FilterRepository) (s : State) (now : Z) (net : Net)
            (param : Param) (obs : nat -> State),
       isBlocklistFilterSetup s = false ->
       isBlocklistUnderConstruction (this s) = true ->
       now - startTime (this s) <= 2 * workerTimeout param ->
       obs 0%nat = s ->
       (forall k, isBlocklistFilterSetup (obs k) = false) ->
       (forall k, exceptionFrom (this (obs k)) = exceptionFrom (this s)
                  /\ exceptionStack (this (obs k)) = exceptionStack (this s)) ->
       exists T,
         fetchTimeout param <= T
         /\ Response.exceptionStack (snd (poll obs param 0 0))
            = "blocklist-filter timeout " +:+ toString T).
Proof.
  intros Hclaim.
  destruct (Hclaim Example.artifacts Example.repository
              (fst Example.failedThenBuilding) 2 Example.netUp Example.request
              (fun _ => fst Example.failedThenBuilding))
    as (T & _ & Hstack).
  - vm_compute; reflexivity.
  - vm_compute; reflexivity.
  - vm_compute. discriminate.
  - reflexivity.
  - intros _. vm_compute; reflexivity.
  - intros _. split; reflexivity.
  - assert (Hboom : Response.exceptionStack
              (snd (poll (fun _ => fst Example.failedThenBuilding) Example.request 0 0))
            = "boom") by (vm_compute; reflexivity).
    rewrite Hboom in Hstack.
    rewrite !append_cons in Hstack. discriminate.
Qed.



(** C6, witness: a build, a waiter and the end of the build. *)
Lemma build_state_transitions_witness :
  noStaleOverride initial Example.joined = true
  /\ (buildsInFlight (snd (Example.after Example.joined)) <= 1)%nat.
Proof.
  assert (Hno : noStaleOverride initial Example.joined = true) by (vm_compute; reflexivity).
  split; [exact Hno|].
  apply (proj2 (proj2 (proj2 build_state_transitions)) Example.joined
           (Example.after Example.joined) (Example.observed Example.joined)); [|exact Hno].
  apply run_example. vm_compute. discriminate.
Defined.

(** C6, counterexample: after a stale override two builds are in flight;
    the first fails, the state is Idle, and the end of the second takes it
    from Idle to Ready. *)
Lemma stale_override_breaks_transitions :
  ~ (forall (A : Artifacts) (F : FilterRepository) (evs : list Event)
            (sys sys' : System) (os : list Observation) (ev : Event) (o : Observation),
       run initial evs = Some (sys, os) ->
       step sys ev = Some (sys', o) ->
       (buildsInFlight (snd sys) <= 1)%nat
       /\ ~ (buildState (fst sys) = Idle /\ buildState (fst sys') = Ready)).
Proof.
  intros Hclaim.
  assert (Hrun : run initial Example.overridden
                 = Some (Example.after Example.overridden,
                         Example.observed Example.overridden))
    by (apply run_example; vm_compute; discriminate).
  destruct (step (Example.after Example.overridden) (Settle 0%nat))
    as [[sys' o]|] eqn:Hstep; [|vm_compute in Hstep; discriminate].
  destruct (Hclaim Example.artifacts Example.repository Example.overridden _ _ _ _ _
              Hrun Hstep) as [_ Hskip].
  apply Hskip. split; [vm_compute; reflexivity|].
  vm_compute in Hstep. injection Hstep as <- _. vm_compute; reflexivity.
Qed.

(** * Further properties of the code *)

(** ** The asset fetcher *)

Section FetcherMore.
Context `{Artifacts}.

(** X1. [fileFetch] is fulfilled exactly when the transport answers with a
    success response and the body is read in the way [typ] asks for; a
    buffer request then yields the bytes as an ArrayBuffer and a json
    request the parsed document, never the other kind. *)
Theorem fileFetch_fulfilled_iff (net : Net) (url typ : string) (p : Payload) :
  outcome (snd (fileFetch net url typ)) = inr p <->
  exists r, outcome (net url) = inr r /\ ok r = true /\
    ((typ = "buffer" /\ exists b, outcome (arrayBuffer r) = inr b /\ p = ArrayBuffer b)
     \/ (typ = "json" /\ exists j, outcome (json r) = inr j /\ p = JsonValue j)).
Proof.
  unfold fileFetch.
  destruct (String.eqb_spec typ "buffer") as [-> | Hb].
  - cbn [negb andb snd]. destruct (outcome (net url)) as [e|r] eqn:Hnet.
    + split; [discriminate | intros (r & [=] & _)].
    + destruct (ok r) eqn:Hok; cbn [negb outcome].
      * destruct (outcome (arrayBuffer r)) as [e|b] eqn:Hbody; split.
        -- discriminate.
        -- intros (r' & [= <-] & _ & [(_ & b & Hb' & _) | ([=] & _)]). congruence.
        -- intros [= <-]. exists r. split; [reflexivity|]. split; [exact Hok|].
           left. split; [reflexivity|]. eauto.
        -- intros (r' & [= <-] & _ & [(_ & b' & Hb' & ->) | ([=] & _)]). congruence.
      * split; [discriminate | intros (r' & [= <-] & Hok' & _); congruence].
  - destruct (String.eqb_spec typ "json") as [-> | Hj].
    + cbn [negb andb snd]. destruct (outcome (net url)) as [e|r] eqn:Hnet.
      * split; [discriminate | intros (r & [=] & _)].
      * destruct (ok r) eqn:Hok; cbn [negb outcome].
        -- destruct (outcome (json r)) as [e|j] eqn:Hbody; split.
           ++ discriminate.
           ++ intros (r' & [= <-] & _ & [([=] & _) | (_ & j & Hj' & _)]). congruence.
           ++ intros [= <-]. exists r. split; [reflexivity|]. split; [exact Hok|].
              right. split; [reflexivity|]. eauto.
           ++ intros (r' & [= <-] & _ & [([=] & _) | (_ & j' & Hj' & ->)]). congruence.
        -- split; [discriminate | intros (r' & [= <-] & Hok' & _); congruence].
    + cbn [negb andb snd outcome]. split; [discriminate|].
      intros (r & _ & _ & [(-> & _) | (-> & _)]); contradiction.
Qed.

(** X2. A conversion type other than [buffer] and [json] is refused before
    anything goes out: no request is issued and the promise is rejected
    with [Unknown conversion type at fileFetch], whatever the network
    would have answered. With a known type exactly one request goes out,
    and a rejection of the transport itself is passed on unchanged. *)
Theorem fileFetch_unknown_type (net : Net) (url typ : string) :
  (typ <> "buffer" -> typ <> "json" ->
   fileFetch net url typ
   = ([], mkPromise 0%nat (inl (mkError "Unknown conversion type at fileFetch"))))
  /\ (typ = "buffer" \/ typ = "json" ->
      fst (fileFetch net url typ) = [url]
      /\ forall e, outcome (net url) = inl e ->
           snd (fileFetch net url typ) = mkPromise (settledAt (net url)) (inl e)).
Proof.
  split.
  - intros Hb Hj. unfold fileFetch.
    destruct (String.eqb_spec typ "buffer"); [contradiction|].
    destruct (String.eqb_spec typ "json"); [contradiction|]. reflexivity.
  - intros [-> | ->]; (split; [reflexivity|]); intros e He;
      unfold fileFetch; cbn [negb andb snd String.eqb]; simpl; rewrite He; reflexivity.
Qed.

End FetcherMore.

(** X1, witness: the trie of the example network. *)
Lemma fileFetch_fulfilled_iff_witness :
  outcome (snd (fileFetch Example.netUp "https://example.test/1/td.txt" "buffer"))
  = inr (ArrayBuffer [Byte.x01]).
Proof.
  apply (fileFetch_fulfilled_iff Example.netUp "https://example.test/1/td.txt" "buffer").
  exists (Example.res200 [Byte.x01] "{}"). repeat split.
  left. split; [reflexivity|]. exists [Byte.x01]. split; reflexivity.
Defined.

(** X2, witness: a request for text. *)
Lemma fileFetch_unknown_type_witness :
  fileFetch Example.netUp "https://example.test/1/td.txt" "text"
  = ([], mkPromise 0%nat (inl (mkError "Unknown conversion type at fileFetch"))).
Proof.
  apply (fileFetch_unknown_type Example.netUp "https://example.test/1/td.txt" "text");
    discriminate.
Defined.

(** ** The part assembler *)

Lemma length_append (a b : string) :
  String.length (a +:+ b) = (String.length a + String.length b)%nat.
Proof.
  induction a as [|c a IH]; [reflexivity|].
  rewrite append_cons. cbn [String.length]. rewrite IH. reflexivity.
Qed.

Lemma append_inj_r (s x y : string) : x +:+ s = y +:+ s -> x = y.
Proof.
  revert y. induction x as [|c x IH]; intros [|d y] Heq.
  - reflexivity.
  - apply (f_equal String.length) in Heq. rewrite !length_append in Heq.
    cbn [String.length] in Heq. lia.
  - apply (f_equal String.length) in Heq. rewrite !length_append in Heq.
    cbn [String.length] in Heq. lia.
  - rewrite !append_cons in Heq. injection Heq as -> Heq. f_equal. exact (IH _ Heq).
Qed.

Lemma to_int_proper (z : Z) :
  Z.to_int z <> Decimal.Pos Decimal.Nil /\ Z.to_int z <> Decimal.Neg Decimal.Nil.
Proof.
  destruct z as [|p|p]; cbn [Z.to_int]; split; try discriminate;
    intros [= Hnil]; exact (DecimalPos.Unsigned.to_uint_nonnil p Hnil).
Qed.

(** Two numbers that print the same are the same. *)
Lemma toString_inj (a b : Z) : toString a = toString b -> a = b.
Proof.
  unfold toString. intros Heq.
  apply (f_equal NilZero.int_of_string) in Heq.
  destruct (to_int_proper a) as [Ha1 Ha2]. destruct (to_int_proper b) as [Hb1 Hb2].
  rewrite !NilZero.isi in Heq by assumption.
  injection Heq as Heq. apply (f_equal Z.of_int) in Heq.
  rewrite !DecimalZ.of_to in Heq. exact Heq.
Qed.

(** A padded index is not the natural print of a number from ten on. *)
Lemma padded_not_wide (a b : Z) :
  0 <= a < 10 -> 10 <= b -> "0" +:+ toString a <> toString b.
Proof.
  intros Ha Hb Heq. unfold toString at 2 in Heq.
  apply (f_equal NilZero.int_of_string) in Heq.
  destruct (to_int_proper b) as [Hb1 Hb2].
  rewrite (NilZero.isi (Z.to_int b)) in Heq by assumption.
  assert (Hc : a = 0 \/ a = 1 \/ a = 2 \/ a = 3 \/ a = 4 \/ a = 5 \/
               a = 6 \/ a = 7 \/ a = 8 \/ a = 9) by lia.
  assert (Hval : exists d, NilZero.int_of_string ("0" +:+ toString a) = Some d
                           /\ Z.of_int d = a).
  { repeat (destruct Hc as [->|Hc]; [eexists; split; [vm_compute; reflexivity | reflexivity]|]).
    subst a. eexists; split; [vm_compute; reflexivity | reflexivity]. }
  destruct Hval as (d & Hd & Hda). rewrite Hd in Heq. injection Heq as ->.
  rewrite DecimalZ.of_to in Hda. lia.
Qed.

Lemma toLocaleString_inj (a b : Z) :
  0 <= a -> 0 <= b -> toLocaleString a = toLocaleString b -> a = b.
Proof.
  intros Ha Hb Heq.
  destruct (Z.lt_ge_cases a 10) as [Ha10|Ha10], (Z.lt_ge_cases b 10) as [Hb10|Hb10].
  - rewrite !toLocaleString_small in Heq by lia.
    rewrite !append_cons, !append_nil in Heq. injection Heq as Heq.
    exact (toString_inj _ _ Heq).
  - rewrite toLocaleString_small in Heq by lia. rewrite toLocaleString_wide in Heq by lia.
    exfalso. exact (padded_not_wide a b ltac:(lia) Hb10 Heq).
  - rewrite toLocaleString_wide in Heq by lia. rewrite toLocaleString_small in Heq by lia.
    exfalso. exact (padded_not_wide b a ltac:(lia) Ha10 (eq_sym Heq)).
  - rewrite !toLocaleString_wide in Heq by lia. exact (toString_inj _ _ Heq).
Qed.

Section AssemblerMore.
Context `{Artifacts}.

Lemma tdPartUrl_inj (baseurl : string) (a b : Z) :
  0 <= a -> 0 <= b -> tdPartUrl baseurl a = tdPartUrl baseurl b -> a = b.
Proof.
  unfold tdPartUrl. intros Ha Hb Heq.
  apply String.app_inj in Heq. apply String.app_inj in Heq.
  apply append_inj_r in Heq. exact (toLocaleString_inj a b Ha Hb Heq).
Qed.

Lemma Promise_all_fulfilled_inv {A : Type} (ps : list (Promise A)) (l : list A) :
  outcome (Promise_all ps) = inr l ->
  Forall2 (fun p a => outcome p = inr a) ps l.
Proof.
  revert l. induction ps as [|p ps IH]; intros l; simpl.
  - intros [= <-]. constructor.
  - destruct (outcome p) as [e|a] eqn:Hp;
      destruct (outcome (Promise_all ps)) as [e'|l'] eqn:Hr; simpl.
    + destruct (settledAt p <=? settledAt (Promise_all ps))%nat; discriminate.
    + discriminate.
    + discriminate.
    + intros [= <-]. constructor; [exact Hp | apply IH; reflexivity].
Qed.

Lemma fileFetch_buffer_payload (net : Net) (url : string) (p : Payload) :
  outcome (snd (fileFetch net url "buffer")) = inr p -> exists b, p = ArrayBuffer b.
Proof.
  unfold fileFetch. cbn [negb andb snd String.eqb]. simpl.
  destruct (outcome (net url)) as [e|r]; [discriminate|].
  destruct (ok r); cbn [negb outcome]; [|discriminate].
  destruct (outcome (arrayBuffer r)) as [e|b]; [discriminate|].
  intros [= <-]. eauto.
Qed.

Lemma parts_fulfilled_inv (net : Net) (baseurl : string) (l : list Z)
    (payloads : list Payload) :
  Forall2 (fun p a => outcome p = inr a)
    (List.map snd (List.map (fun i => fileFetch net (tdPartUrl baseurl i) "buffer") l))
    payloads ->
  Forall2 (fun i b =>
     outcome (snd (fileFetch net (tdPartUrl baseurl i) "buffer")) = inr (ArrayBuffer b))
    l (List.map bytesOf payloads).
Proof.
  revert payloads. induction l as [|i l IH]; intros payloads Hall; simpl in Hall.
  - inversion Hall. constructor.
  - inversion Hall as [|p a ps pl Hp Hrest]; subst. simpl. constructor.
    + destruct (fileFetch_buffer_payload _ _ _ Hp) as [b ->]. exact Hp.
    + apply IH. exact Hrest.
Qed.

(** X3. The assembly is all or nothing. For a part count [n >= 0],
    [makeTd] is fulfilled exactly when the fetch of every part 0..[n] is,
    and then with the concatenation of their bodies in index order; when it
    is rejected, its reason is the reason of one of the part fetches, and
    no buffer made of the parts that did arrive comes out. *)
Theorem makeTd_all_or_nothing (net : Net) (baseurl : string) (n : Z) :
  0 <= n ->
  (forall p, outcome (snd (makeTd net baseurl n)) = inr p <->
     exists bodies : list Buffer,
       Forall2 (fun i b =>
          outcome (snd (fileFetch net (tdPartUrl baseurl i) "buffer"))
          = inr (ArrayBuffer b)) (seqZ 0 (n + 1)) bodies
       /\ p = ArrayBuffer (List.concat bodies))
  /\ (forall e, outcome (snd (makeTd net baseurl n)) = inl e ->
        exists i, 0 <= i <= n
          /\ outcome (snd (fileFetch net (tdPartUrl baseurl i) "buffer")) = inl e).
Proof.
  intros Hn. rewrite (makeTd_split net baseurl n Hn). cbn [snd]. cbn zeta. cbn [outcome].
  split.
  - intros p. split.
    + destruct (outcome (Promise_all _)) as [e|l] eqn:Hall; [discriminate|].
      intros [= <-]. exists (List.map bytesOf l). split; [|reflexivity].
      apply parts_fulfilled_inv, Promise_all_fulfilled_inv. exact Hall.
    + intros (bodies & Hall & ->).
      rewrite (Promise_all_fulfilled _ (List.map ArrayBuffer bodies)).
      * unfold bufutil_concat. rewrite List.map_map. cbn [bytesOf].
        rewrite List.map_id. reflexivity.
      * rewrite List.map_map. clear Hn.
        induction Hall as [|i b l bs Hi _ IH]; simpl; constructor; assumption.
  - intros e. destruct (outcome (Promise_all _)) as [e'|l] eqn:Hall; [|discriminate].
    intros [= ->]. apply Promise_all_reason in Hall.
    apply Exists_exists in Hall as (p & Hin & Hp).
    rewrite List.map_map in Hin. apply list_elem_of_fmap in Hin as (i & -> & Hi).
    apply elem_of_seqZ in Hi. exists i. split; [lia | exact Hp].
Qed.

Lemma makeTd_requests_NoDup (net : Net) (baseurl : string) (n : Z) :
  NoDup (fst (makeTd net baseurl n)).
Proof.
  destruct (Z.le_gt_cases n (-1)) as [Hneg|Hpos].
  - unfold makeTd. destruct (Z.leb_spec n (-1)); [|lia]. apply NoDup_singleton.
  - rewrite (makeTd_split net baseurl n ltac:(lia)). cbn [fst].
    apply NoDup_fmap_2_strong; [|apply NoDup_seqZ].
    intros x y Hx Hy. apply elem_of_seqZ in Hx, Hy.
    apply tdPartUrl_inj; lia.
Qed.

Lemma makeTd_requests_length (net : Net) (baseurl : string) (n : Z) :
  length (fst (makeTd net baseurl n)) = Z.to_nat (Z.max 1 (n + 1)).
Proof.
  destruct (Z.le_gt_cases n (-1)) as [Hneg|Hpos].
  - unfold makeTd. destruct (Z.leb_spec n (-1)); [|lia]. cbn. lia.
  - rewrite (makeTd_split net baseurl n ltac:(lia)). cbn [fst].
    rewrite length_map, length_seqZ. lia.
Qed.

(** Every request of the assembly is for a name that starts with [/td]
    under the base. *)
Lemma makeTd_requests_shape (net : Net) (baseurl : string) (n : Z) (url : string) :
  url ∈ fst (makeTd net baseurl n) -> exists rest, url = baseurl +:+ "/td" +:+ rest.
Proof.
  destruct (Z.le_gt_cases n (-1)) as [Hneg|Hpos].
  - unfold makeTd. destruct (Z.leb_spec n (-1)); [|lia]. cbn [fst fileFetch].
    intros Hin. apply list_elem_of_singleton in Hin as ->. exists ".txt". reflexivity.
  - rewrite (makeTd_split net baseurl n ltac:(lia)). cbn [fst].
    intros Hin. apply list_elem_of_fmap in Hin as (i & -> & _).
    unfold tdPartUrl. eauto.
Qed.

(** X4. [makeTd] never asks for the same resource twice: for every part
    count [n] it issues [max 1 (n + 1)] requests, all different; every
    [n <= -1] is treated as the unsplit trie. *)
Theorem makeTd_requests_distinct (net : Net) (baseurl : string) (n : Z) :
  NoDup (fst (makeTd net baseurl n))
  /\ length (fst (makeTd net baseurl n)) = Z.to_nat (Z.max 1 (n + 1))
  /\ (n <= -1 -> makeTd net baseurl n = makeTd net baseurl (-1)).
Proof.
  split; [apply makeTd_requests_NoDup|]. split; [apply makeTd_requests_length|].
  intros Hneg. unfold makeTd. destruct (Z.leb_spec n (-1)); [reflexivity | lia].
Qed.

End AssemblerMore.

(** X3, witness: of four parts the last one is lost. *)
Lemma makeTd_all_or_nothing_witness :
  0 <= 3
  /\ exists i, 0 <= i <= 3
       /\ outcome (snd (fileFetch Example.netPartial
                          (tdPartUrl "https://example.test/1" i) "buffer"))
          = inl (mkError "boom").
Proof.
  split; [lia|].
  apply (makeTd_all_or_nothing Example.netPartial "https://example.test/1" 3); [lia|].
  vm_compute. reflexivity.
Defined.

(** X4, witness: a negative part count other than -1. *)
Lemma makeTd_requests_distinct_witness :
  makeTd Example.netUp "https://example.test/1" (-7)
  = makeTd Example.netUp "https://example.test/1" (-1).
Proof.
  apply (makeTd_requests_distinct Example.netUp "https://example.test/1" (-7)). lia.
Defined.

(** ** The download *)

Section DownloadMore.
Context `{FilterRepository}.

(** X5. A build never asks for the same resource twice: its requests are
    the file tags first, the trie, and the rank directory last, all
    different; there are three of them when the trie is unsplit
    ([tdParts <= 0]) and [tdParts + 3] otherwise. *)
Theorem build_requests_distinct (net : Net)
    (blocklistUrl latestTimestamp : string) (tdNodecount tdParts : Z) :
  let requests :=
    fst (snd (downloadBuildBlocklist net blocklistUrl latestTimestamp tdNodecount tdParts)) in
  NoDup requests
  /\ hd_error requests = Some ((blocklistUrl +:+ latestTimestamp) +:+ "/filetag.json")
  /\ last requests = Some ((blocklistUrl +:+ latestTimestamp) +:+ "/rd.txt")
  /\ length requests = if tdParts <=? 0 then 3%nat else Z.to_nat (tdParts + 3).
Proof.
  cbn zeta. rewrite downloadBuildBlocklist_requests.
  set (baseurl := blocklistUrl +:+ latestTimestamp).
  set (tds := fst (makeTd net baseurl (orZ tdParts (-1)))).
  assert (Hshape : forall url, url ∈ tds -> exists rest, url = baseurl +:+ "/td" +:+ rest)
    by (intros url; apply makeTd_requests_shape).
  split; [|split; [reflexivity|split]].
  - apply NoDup_app. split; [apply NoDup_singleton|]. split.
    + intros url Hurl Hin. apply list_elem_of_singleton in Hurl as ->.
      apply elem_of_app in Hin as [Hin|Hin].
      * destruct (Hshape _ Hin) as [rest Heq]. apply String.app_inj in Heq.
        rewrite !append_cons in Heq. discriminate.
      * apply list_elem_of_singleton in Hin. apply String.app_inj in Hin. discriminate.
    + apply NoDup_app. split; [apply makeTd_requests_NoDup|]. split; [|apply NoDup_singleton].
      intros url Hin Hrd. apply list_elem_of_singleton in Hrd as ->.
      destruct (Hshape _ Hin) as [rest Heq]. apply String.app_inj in Heq.
      rewrite !append_cons in Heq. discriminate.
  - rewrite app_assoc. apply last_snoc.
  - rewrite !length_app. unfold tds. rewrite makeTd_requests_length. cbn [length].
    unfold orZ. destruct (Z.eqb_spec tdParts 0) as [->|Hne]; [reflexivity|].
    destruct (Z.leb_spec tdParts 0); lia.
Qed.

(** X6. The download is all or nothing. The promise [downloadBuildBlocklist]
    awaits is fulfilled exactly when the fetch of the file tags, the
    assembly of the trie and the fetch of the rank directory all are, and
    then with their three payloads in that order; when it is rejected, its
    reason is the reason of one of the three. *)
Theorem download_all_or_nothing (net : Net)
    (blocklistUrl latestTimestamp : string) (tdNodecount tdParts : Z) :
  let baseurl := blocklistUrl +:+ latestTimestamp in
  let buf0 := snd (fileFetch net (baseurl +:+ "/filetag.json") "json") in
  let buf1 := snd (makeTd net baseurl (orZ tdParts (-1))) in
  let buf2 := snd (fileFetch net (baseurl +:+ "/rd.txt") "buffer") in
  let joined :=
    snd (snd (downloadBuildBlocklist net blocklistUrl latestTimestamp tdNodecount tdParts)) in
  (forall downloads, outcome joined = inr downloads <->
     exists d0 d1 d2, outcome buf0 = inr d0 /\ outcome buf1 = inr d1
                      /\ outcome buf2 = inr d2 /\ downloads = [d0; d1; d2])
  /\ (forall e, outcome joined = inl e ->
        outcome buf0 = inl e \/ outcome buf1 = inl e \/ outcome buf2 = inl e).
Proof.
  cbn zeta. unfold downloadBuildBlocklist. cbn [snd tdparts].
  set (buf0 := snd (fileFetch net _ "json")).
  set (buf1 := snd (makeTd net _ _)).
  set (buf2 := snd (fileFetch net _ "buffer")).
  split.
  - intros downloads. split.
    + intros Hall. apply Promise_all_fulfilled_inv in Hall.
      inversion Hall as [|p0 d0 ps0 l0 Hd0 Hall0]; subst.
      inversion Hall0 as [|p1 d1 ps1 l1 Hd1 Hall1]; subst.
      inversion Hall1 as [|p2 d2 ps2 l2 Hd2 Hall2]; subst.
      inversion Hall2; subst. eauto 8.
    + intros (d0 & d1 & d2 & Hd0 & Hd1 & Hd2 & ->).
      apply Promise_all_fulfilled. repeat constructor; assumption.
  - intros e He. apply Promise_all_reason in He.
    inversion He as [? ? Hd0 | ? ? He1]; subst; [auto|].
    inversion He1 as [? ? Hd1 | ? ? He2]; subst; [auto|].
    inversion He2 as [? ? Hd2 | ? ? He3]; subst; [auto|].
    inversion He3.
Qed.

(** X7. When the downloads are in, a builder stores the three artifacts in
    the wrapper together, hands exactly them, with the basic config, to
    [createBlocklistFilter], and clears the under-construction flag. If
    the builder returns, the shared filter object is overwritten in place,
    whatever it held before, with the trie, the frozen trie, that config
    and the downloaded file tags, and the caller gets the ready envelope;
    if it throws, the filter object is left alone, the artifacts stay
    stored, and the caller gets the failure envelope. When the downloads
    were rejected none of the three artifacts changes. *)
Theorem build_stores_and_loads (config : BasicConfig) (s : State) :
  (forall d0 d1 d2,
     let out := initBlocklistConstruction_resumed config (inr [d0; d1; d2]) s in
     td (this (fst out)) = Some d1
     /\ rd (this (fst out)) = Some d2
     /\ ft (this (fst out)) = Some d0
     /\ isBlocklistUnderConstruction (this (fst out)) = false
     /\ startTime (this (fst out)) = startTime (this s)
     /\ match createBlocklistFilter (Some d1) (Some d2) (Some d0) config with
        | inr (t, frozen) =>
            heap (fst out)
            = <[blocklistFilter (this s) :=
                  {| filter_t := Some t; filter_ft := Some frozen;
                     filter_blocklistBasicConfig := Some config;
                     filter_blocklistFileTag := Some d0 |}]> (heap s)
            /\ snd out = readyResponse s
            /\ isBlocklistFilterSetup (fst out) = true
        | inl e =>
            heap (fst out) = heap s
            /\ snd out = errResponse "initBlocklistConstruction" e
        end)
  /\ (forall e,
        let out := initBlocklistConstruction_resumed config (inl e) s in
        td (this (fst out)) = td (this s)
        /\ rd (this (fst out)) = rd (this s)
        /\ ft (this (fst out)) = ft (this s)
        /\ heap (fst out) = heap s).
Proof.
  split.
  - intros d0 d1 d2. cbn zeta.
    unfold initBlocklistConstruction_resumed, downloadBuildBlocklist_resumed.
    cbn [lookup list_lookup td rd ft this heap set_downloads].
    destruct (createBlocklistFilter (Some d1) (Some d2) (Some d0) config)
      as [e|[t frozen]] eqn:Hb; cbn.
    + repeat split.
    + repeat split.
      apply (isBlocklistFilterSetup_loadFilter (blocklistFilter (this s))). reflexivity.
  - intros e. cbn. repeat split.
Qed.

End DownloadMore.

(** X6, witness: the connection is broken; the reason of the join is the
    reason of a leg. *)
Lemma download_all_or_nothing_witness :
  outcome (snd (fileFetch Example.netBroken
                  (("https://example.test/" +:+ "1") +:+ "/filetag.json") "json"))
    = inl (mkError "boom")
  \/ outcome (snd (makeTd Example.netBroken ("https://example.test/" +:+ "1")
                     (orZ 2 (-1)))) = inl (mkError "boom")
  \/ outcome (snd (fileFetch Example.netBroken
                     (("https://example.test/" +:+ "1") +:+ "/rd.txt") "buffer"))
     = inl (mkError "boom").
Proof.
  apply (download_all_or_nothing Example.netBroken "https://example.test/" "1" 5 2).
  vm_compute. reflexivity.
Defined.

(** ** The waiter *)

Section WaiterMore.
Context `{FilterRepository}.

Lemma polls_shift (t : Z) (M : nat) :
  t :: List.map (fun j => t + waitms + waitms * Z.of_nat j) (seq 0 M)
  = List.map (fun j => t + waitms * Z.of_nat j) (seq 0 (S M)).
Proof.
  change (seq 0 (S M)) with (0%nat :: seq 1 M). cbn [List.map].
  f_equal; [lia|].
  rewrite <- seq_shift, List.map_map. apply List.map_ext. intros j. lia.
Qed.

(** A waiter that finds the filter not ready at its first [N] turns and
    whose budget ends there returns the timeout envelope at turn [N],
    whatever the state is then. *)
Lemma poll_timeout_at (obs : nat -> State) (param : Param) (N k : nat) (t : Z) :
  (forall j, (j < N)%nat -> isBlocklistFilterSetup (obs (k + j)%nat) = false) ->
  (forall j, (j < N)%nat -> t + waitms * Z.of_nat j < fetchTimeout param) ->
  fetchTimeout param <= t + waitms * Z.of_nat N ->
  poll obs param k t
  = (List.map (fun j => t + waitms * Z.of_nat j) (seq 0 N),
     timeoutResponse (t + waitms * Z.of_nat N) (obs (k + N)%nat)).
Proof.
  revert k t. induction N as [|N IH]; intros k t Hnot Hin Hout; simp poll.
  - destruct (Z_lt_dec t (fetchTimeout param)) as [Hlt|Hge]; [lia|]. simpl.
    f_equal. f_equal; [lia | f_equal; lia].
  - specialize (Hin 0%nat ltac:(lia)) as Hlt0.
    destruct (Z_lt_dec t (fetchTimeout param)) as [Hlt|Hge]; [|lia]. simpl.
    specialize (Hnot 0%nat ltac:(lia)) as Hs0. rewrite Nat.add_0_r in Hs0. rewrite Hs0.
    rewrite (IH (S k) (t + waitms)).
    + cbn [fst snd]. f_equal; [apply polls_shift|].
      f_equal; [lia | f_equal; lia].
    + intros j Hj. specialize (Hnot (S j) ltac:(lia)).
      replace (S k + j)%nat with (k + S j)%nat by lia. exact Hnot.
    + intros j Hj. specialize (Hin (S j) ltac:(lia)). lia.
    + lia.
Qed.

(** A waiter that finds the filter not ready at its first [N] turns and
    ready at turn [N], within its budget, returns it then. *)
Lemma poll_ready_at (obs : nat -> State) (param : Param) (N k : nat) (t : Z) :
  (forall j, (j < N)%nat -> isBlocklistFilterSetup (obs (k + j)%nat) = false) ->
  isBlocklistFilterSetup (obs (k + N)%nat) = true ->
  t + waitms * Z.of_nat N < fetchTimeout param ->
  poll obs param k t
  = (List.map (fun j => t + waitms * Z.of_nat j) (seq 0 (S N)),
     readyResponse (obs (k + N)%nat)).
Proof.
  revert k t. induction N as [|N IH]; intros k t Hnot Hready Hin; simp poll.
  - destruct (Z_lt_dec t (fetchTimeout param)) as [Hlt|Hge]; [|lia]. simpl.
    rewrite Nat.add_0_r in *. rewrite Hready. f_equal. f_equal. lia.
  - destruct (Z_lt_dec t (fetchTimeout param)) as [Hlt|Hge]; [|unfold waitms in *; lia].
    simpl.
    specialize (Hnot 0%nat ltac:(lia)) as Hs0. rewrite Nat.add_0_r in Hs0. rewrite Hs0.
    rewrite (IH (S k) (t + waitms)).
    + cbn [fst snd]. f_equal; [apply polls_shift|].
      f_equal. f_equal. lia.
    + intros j Hj. specialize (Hnot (S j) ltac:(lia)).
      replace (S k + j)%nat with (k + S j)%nat by lia. exact Hnot.
    + replace (S k + N)%nat with (k + S N)%nat by lia. exact Hready.
    + lia.
Qed.

(** X8. A waiter gets the filter at the first poll that finds it ready,
    provided that poll is within its budget: if the filter is not ready at
    the polls 0..[N-1] and ready at poll [N], with [50 * N < fetchTimeout],
    the waiter has polled at 0, 50, ..., [50 * N], so it has waited
    [50 * N], and returns the envelope without exception that carries the
    wrapper's filter object. *)
Theorem waiter_gets_filter (obs : nat -> State) (param : Param) (N : nat) :
  (forall j, (j < N)%nat -> isBlocklistFilterSetup (obs j) = false) ->
  isBlocklistFilterSetup (obs N) = true ->
  waitms * Z.of_nat N < fetchTimeout param ->
  poll obs param 0 0
  = (List.map (fun j => waitms * Z.of_nat j) (seq 0 (S N)),
     Response.mk false "" "" (Response.mkData (Some (blocklistFilter (this (obs N)))))).
Proof.
  intros Hnot Hready Hin.
  rewrite (poll_ready_at obs param N 0 0); [reflexivity | | |]; cbn [Nat.add];
    [exact Hnot | exact Hready | lia].
Qed.

(** X9. The budget is tested before readiness. A waiter whose [N]-th poll
    would fall on or after [fetchTimeout] returns the timeout envelope
    then, with [isException] set and no filter, also when the filter has
    become ready during its last sleep; with [fetchTimeout <= 0] it does so
    in the turn of the call, without ever sleeping. *)
Theorem waiter_budget_tested_first (obs : nat -> State) (param : Param) (N : nat) :
  (forall j, (j < N)%nat -> isBlocklistFilterSetup (obs j) = false) ->
  (forall j, (j < N)%nat -> waitms * Z.of_nat j < fetchTimeout param) ->
  fetchTimeout param <= waitms * Z.of_nat N ->
  poll obs param 0 0
  = (List.map (fun j => waitms * Z.of_nat j) (seq 0 N),
     timeoutResponse (waitms * Z.of_nat N) (obs N))
  /\ Response.isException (snd (poll obs param 0 0)) = true
  /\ Response.blocklistFilter (Response.data (snd (poll obs param 0 0))) = None
  /\ (N = 0%nat -> forall s, waitLoop param 0 s = Returned (timeoutResponse 0 s)).
Proof.
  intros Hnot Hin Hout.
  assert (Hpoll : poll obs param 0 0
    = (List.map (fun j => waitms * Z.of_nat j) (seq 0 N),
       timeoutResponse (waitms * Z.of_nat N) (obs N))).
  { rewrite (poll_timeout_at obs param N 0 0); [reflexivity | | |]; cbn [Nat.add];
      [exact Hnot | intros j Hj; specialize (Hin j Hj); lia | lia]. }
  rewrite Hpoll. cbn [snd]. split; [reflexivity|]. split; [reflexivity|].
  split; [reflexivity|].
  intros -> s. unfold waitLoop.
  destruct (Z.ltb_spec 0 (fetchTimeout param)); [cbn in Hout; lia | reflexivity].
Qed.

End WaiterMore.

(** X8, witness: the filter is ready at the third poll. *)
Lemma waiter_gets_filter_witness :
  Response.isException
    (snd (poll (fun k => if (k <? 2)%nat then fst Example.building else fst Example.ready)
               Example.request 0 0)) = false.
Proof.
  rewrite (waiter_gets_filter
             (fun k => if (k <? 2)%nat then fst Example.building else fst Example.ready)
             Example.request 2).
  - reflexivity.
  - intros j Hj. destruct j as [|[|j]]; [vm_compute; reflexivity.. | lia].
  - vm_compute. reflexivity.
  - vm_compute. reflexivity.
Defined.

(** X9, witness: with a budget of 100 the poll at 100 is not made, though
    the filter is ready by then. *)
Lemma waiter_budget_tested_first_witness :
  Response.isException
    (snd (poll (fun k => if (k <? 2)%nat then fst Example.building else fst Example.ready)
               {| rxid := "rx"; blocklistUrl := "u"; latestTimestamp := "1";
                  workerTimeout := 10; tdParts := 2; tdNodecount := 5;
                  fetchTimeout := 100 |} 0 0)) = true.
Proof.
  apply (waiter_budget_tested_first
           (fun k => if (k <? 2)%nat then fst Example.building else fst Example.ready)
           {| rxid := "rx"; blocklistUrl := "u"; latestTimestamp := "1";
              workerTimeout := 10; tdParts := 2; tdNodecount := 5;
              fetchTimeout := 100 |} 2).
  - intros j Hj. destruct j as [|[|j]]; [vm_compute; reflexivity.. | lia].
  - intros j Hj. destruct j as [|[|j]]; [vm_compute; reflexivity.. | lia].
  - vm_compute. discriminate.
Defined.

(** ** The coordinator as a whole *)

Section CoordinatorMore.
Context `{FilterRepository}.

Lemma orString_nonempty (a b : string) : b <> "" -> orString a b <> "".
Proof. intros Hb. unfold orString. destruct a; [exact Hb | discriminate]. Qed.

(** X10. Only a caller that takes the builder role fetches. A turn of the
    event loop issues requests exactly when it is a call that finds the
    filter not ready and either no build in progress or a stale one, and
    then they are the requests of one download; a caller that finds the
    filter ready, a waiter, and every call that resumes issue none. *)
Theorem only_builders_fetch (sys sys' : System) (ev : Event) (o : Observation) :
  step sys ev = Some (sys', o) ->
  (requests o <> [] <->
   exists now net param,
     ev = Call now net param
     /\ isBlocklistFilterSetup (fst sys) = false
     /\ (isBlocklistUnderConstruction (this (fst sys)) = false
         \/ now - startTime (this (fst sys)) > workerTimeout param * 2))
  /\ (forall now net param,
        ev = Call now net param -> requests o <> [] ->
        requests o
        = fst (snd (downloadBuildBlocklist net (blocklistUrl param)
                      (latestTimestamp param) (tdNodecount param) (tdParts param)))).
Proof.
  destruct sys as [s tasks]. cbn [fst]. intros Hstep.
  destruct ev as [now net param | i].
  - cbn [step] in Hstep.
    destruct (isBlocklistFilterSetup s) eqn:Hs.
    + rewrite (RethinkModule_ready now net param s Hs) in Hstep.
      injection Hstep as <- <-. cbn [requests]. split.
      * split; [congruence|]. intros (? & ? & ? & _ & Hc & _). discriminate.
      * congruence.
    + destruct (isBlocklistUnderConstruction (this s)) eqn:Hf.
      * destruct (Z.gtb_spec (now - startTime (this s)) (workerTimeout param * 2))
          as [Hstale|Hfresh].
        -- apply Z.lt_gt in Hstale.
           rewrite (RethinkModule_builder now net param s Hs (or_intror Hstale)) in Hstep.
           rewrite initBlocklistConstruction_spec in Hstep. cbn zeta in Hstep.
           injection Hstep as <- <-. cbn [requests]. split.
           ++ split; [|intros _; discriminate].
              intros _. exists now, net, param. auto.
           ++ intros ? ? ? [= <- <- <-] _. reflexivity.
        -- rewrite (RethinkModule_waiter now net param s Hs Hf ltac:(lia)) in Hstep.
           assert (Hreq : requests o = []).
           { destruct (waitLoop param 0 s); injection Hstep as <- <-; reflexivity. }
           rewrite Hreq. split.
           ++ split; [congruence|].
              intros (now' & net' & param' & [= <- <- <-] & _ & [Hc|Hc]);
                [discriminate | lia].
           ++ congruence.
      * rewrite (RethinkModule_builder now net param s Hs (or_introl Hf)) in Hstep.
        rewrite initBlocklistConstruction_spec in Hstep. cbn zeta in Hstep.
        injection Hstep as <- <-. cbn [requests]. split.
        -- split; [|intros _; discriminate].
           intros _. exists now, net, param. auto.
        -- intros ? ? ? [= <- <- <-] _. reflexivity.
  - assert (Hreq : requests o = []).
    { cbn [step] in Hstep. destruct (tasks !! i) as [k|]; [|discriminate].
      destruct (resume k s) as [s1 [k'|r]]; injection Hstep as <- <-; reflexivity. }
    rewrite Hreq. split.
    + split; [congruence|]. intros (? & ? & ? & [=] & _).
    + discriminate.
Qed.

(** X11. Every envelope a call returns is of one of two kinds: without
    exception, and then it carries the wrapper's own filter object, which
    is ready at that moment; or with [isException] set, a non-empty
    [exceptionFrom] and no filter. *)
Theorem envelope_kinds (sys sys' : System) (ev : Event) (o : Observation)
    (r : Response.t) :
  step sys ev = Some (sys', o) ->
  returned o = Some r ->
  (Response.isException r = false
   /\ Response.blocklistFilter (Response.data r)
      = Some (blocklistFilter (this (fst sys')))
   /\ isBlocklistFilterSetup (fst sys') = true)
  \/ (Response.isException r = true
      /\ Response.exceptionFrom r <> ""
      /\ Response.blocklistFilter (Response.data r) = None).
Proof.
  assert (Htimeout : forall t s,
            Response.isException (timeoutResponse t s) = true
            /\ Response.exceptionFrom (timeoutResponse t s) <> ""
            /\ Response.blocklistFilter (Response.data (timeoutResponse t s)) = None).
  { intros t s. repeat split. apply orString_nonempty. discriminate. }
  destruct sys as [s tasks]. destruct ev as [now net param | i]; cbn [step].
  - unfold RethinkModule. destruct (isBlocklistFilterSetup s) eqn:Hs.
    + intros [= <- <-] [= <-]. left. cbn. auto.
    + destruct (_ || _).
      * rewrite initBlocklistConstruction_spec. cbn zeta. intros [= <- <-]. discriminate.
      * destruct (waitLoop param 0 s) as [k|r0] eqn:Hw; intros [= <- <-]; [discriminate|].
        intros [= <-]. cbn [fst].
        destruct (waitLoop_returned _ _ _ _ Hw) as [[Hr ->] | ->];
          [left; cbn; auto | right; apply Htimeout].
  - destruct (tasks !! i) as [k|]; [|discriminate].
    destruct k as [config downloads | param totalWaitms].
    + destruct (resume_builder_cases config downloads s)
        as (s' & r0 & -> & Ha & _ & _ & [(e & -> & _) | (-> & Hready & _)]);
        intros [= <- <-] [= <-]; cbn [fst].
      * right. repeat split. discriminate.
      * left. cbn. rewrite Ha. auto.
    + cbn [resume].
      destruct (waitLoop param (totalWaitms + waitms) s) as [k|r0] eqn:Hw;
        intros [= <- <-]; [discriminate|].
      intros [= <-]. cbn [fst].
      destruct (waitLoop_returned _ _ _ _ Hw) as [[Hr ->] | ->];
        [left; cbn; auto | right; apply Htimeout].
Qed.

(** X14. A new wrapper is Idle: its filter object is allocated and not
    set up, nothing is under construction and no failure is on record; its
    first caller therefore takes the builder role, whatever the clock and
    the timeouts are, and the build is recorded as started at that
    moment. *)
Theorem new_wrapper_builds_first (h : gmap nat BlocklistFilter)
    (now : Z) (net : Net) (param : Param) :
  heap (constructor h) !! blocklistFilter (this (constructor h)) = Some new_BlocklistFilter
  /\ buildState (constructor h) = Idle
  /\ exceptionFrom (this (constructor h)) = ""
  /\ exceptionStack (this (constructor h)) = ""
  /\ exists requests k s',
       RethinkModule now net param (constructor h) = (s', requests, Suspended k)
       /\ isBuilder k = true
       /\ buildState s' = Building now.
Proof.
  assert (Hlook : heap (constructor h) !! blocklistFilter (this (constructor h))
                  = Some new_BlocklistFilter)
    by (unfold constructor; cbn [heap this blocklistFilter]; apply lookup_insert_eq).
  assert (Hs : isBlocklistFilterSetup (constructor h) = false)
    by (unfold isBlocklistFilterSetup; rewrite Hlook; reflexivity).
  split; [exact Hlook|]. split; [unfold buildState; rewrite Hs; reflexivity|].
  split; [reflexivity|]. split; [reflexivity|].
  rewrite (RethinkModule_builder now net param (constructor h) Hs (or_introl eq_refl)).
  rewrite initBlocklistConstruction_spec. cbn zeta.
  do 3 eexists. split; [reflexivity|]. split; [reflexivity|].
  unfold buildState. rewrite (isBlocklistFilterSetup_frame (constructor h)) by reflexivity.
  rewrite Hs. reflexivity.
Qed.

End CoordinatorMore.

(** X10, witness: the first call of the example run fetches. *)
Lemma only_builders_fetch_witness :
  exists now net param,
    Call 0 Example.netUp Example.request = Call now net param
    /\ isBlocklistFilterSetup (fst initial) = false
    /\ (isBlocklistUnderConstruction (this (fst initial)) = false
        \/ now - startTime (this (fst initial)) > workerTimeout param * 2).
Proof.
  destruct (step initial (Call 0 Example.netUp Example.request)) as [[sys' o]|] eqn:Hstep;
    [|vm_compute in Hstep; discriminate].
  apply (only_builders_fetch initial sys' (Call 0 Example.netUp Example.request) o Hstep).
  vm_compute in Hstep. injection Hstep as _ <-. discriminate.
Defined.

(** X11, witness: the envelope of the first build. *)
Lemma envelope_kinds_witness :
  (Response.isException (readyResponse (fst Example.building)) = false
   /\ Response.blocklistFilter (Response.data (readyResponse (fst Example.building)))
      = Some (blocklistFilter (this (fst Example.ready)))
   /\ isBlocklistFilterSetup (fst Example.ready) = true)
  \/ (Response.isException (readyResponse (fst Example.building)) = true
      /\ Response.exceptionFrom (readyResponse (fst Example.building)) <> ""
      /\ Response.blocklistFilter (Response.data (readyResponse (fst Example.building)))
         = None).
Proof.
  apply (envelope_kinds Example.building Example.ready (Settle 0%nat)
           {| requests := []; returned := Some (readyResponse (fst Example.building)) |}).
  - vm_compute. reflexivity.
  - reflexivity.
Defined.

(** ** The synchronous construction *)

Section SyncConstructionFacts.
Context `{FilterRepository}.
Variable builtProperties :
  option Payload -> option Payload -> option Payload -> BasicConfig ->
  option BasicConfig * option Payload.

(** X12. When the builder returns, [initBlocklistFilterConstruction] leaves
    the filter ready: the shared filter object holds the builder's trie and
    frozen trie, the flag is cleared again, the start time is the time of
    the call, the artifacts and the failure on record in the wrapper are
    not touched, and from then on [RethinkModule] hands out the filter in
    the turn of the call, without a fetch. *)
Theorem sync_construction_loads (now : Z) (td0 rd0 ft0 : option Payload)
    (config : BasicConfig) (s : State) (t : Trie) (frozen : FrozenTrie) :
  createBlocklistFilter td0 rd0 ft0 config = inr (t, frozen) ->
  let out := initBlocklistFilterConstruction builtProperties now td0 rd0 ft0 config s in
  snd out = inr tt
  /\ isBlocklistFilterSetup (fst out) = true
  /\ heap (fst out) !! blocklistFilter (this s)
     = Some {| filter_t := Some t; filter_ft := Some frozen;
               filter_blocklistBasicConfig := fst (builtProperties td0 rd0 ft0 config);
               filter_blocklistFileTag := snd (builtProperties td0 rd0 ft0 config) |}
  /\ blocklistFilter (this (fst out)) = blocklistFilter (this s)
  /\ isBlocklistUnderConstruction (this (fst out)) = false
  /\ startTime (this (fst out)) = now
  /\ (td (this (fst out)), rd (this (fst out)), ft (this (fst out)))
     = (td (this s), rd (this s), ft (this s))
  /\ (exceptionFrom (this (fst out)), exceptionStack (this (fst out)))
     = (exceptionFrom (this s), exceptionStack (this s))
  /\ forall now' net param,
       RethinkModule now' net param (fst out)
       = (fst out, [], Returned (readyResponse (fst out))).
Proof.
  intros Hb out. subst out. unfold initBlocklistFilterConstruction. rewrite Hb.
  cbn [fst snd heap this blocklistFilter set_startTime set_construction
       isBlocklistUnderConstruction startTime td rd ft exceptionFrom exceptionStack].
  assert (Hready : isBlocklistFilterSetup
    {| heap := <[blocklistFilter (this s) :=
                   {| filter_t := Some t; filter_ft := Some frozen;
                      filter_blocklistBasicConfig :=
                        fst (builtProperties td0 rd0 ft0 config);
                      filter_blocklistFileTag :=
                        snd (builtProperties td0 rd0 ft0 config) |}]> (heap s);
       this := set_construction false
                 (set_startTime now (set_construction true (this s))) |} = true).
  { unfold isBlocklistFilterSetup. cbn [heap this blocklistFilter set_construction set_startTime].
    rewrite lookup_insert_eq. reflexivity. }
  split; [reflexivity|]. split; [exact Hready|].
  split; [apply lookup_insert_eq|].
  repeat (split; [reflexivity|]).
  intros now' net param. apply RethinkModule_ready. exact Hready.
Qed.

(** X13. What the builder throws leaves [initBlocklistFilterConstruction]
    as it is, not as an envelope, and with the under-construction flag
    still set and the start time at the time of the call; the filter
    object is not touched. With the filter not ready, the wrapper now
    looks as if a build were running: a caller up to twice its
    [workerTimeout] later becomes a waiter, fetching nothing, and only a
    later one starts a build. *)
Theorem sync_construction_throws (now : Z) (td0 rd0 ft0 : option Payload)
    (config : BasicConfig) (s : State) (e : JsError) :
  createBlocklistFilter td0 rd0 ft0 config = inl e ->
  let out := initBlocklistFilterConstruction builtProperties now td0 rd0 ft0 config s in
  snd out = inl e
  /\ heap (fst out) = heap s
  /\ isBlocklistUnderConstruction (this (fst out)) = true
  /\ startTime (this (fst out)) = now
  /\ (isBlocklistFilterSetup s = false ->
      buildState (fst out) = Building now
      /\ forall now' net param,
           (now' - now <= workerTimeout param * 2 ->
            RethinkModule now' net param (fst out)
            = (fst out, [], waitLoop param 0 (fst out)))
           /\ (now' - now > workerTimeout param * 2 ->
               exists requests k s',
                 RethinkModule now' net param (fst out) = (s', requests, Suspended k)
                 /\ isBuilder k = true)).
Proof.
  intros Hb out. subst out. unfold initBlocklistFilterConstruction. rewrite Hb.
  cbn [fst snd heap this]. repeat (split; [reflexivity|]).
  intros Hs.
  set (s1 := {| heap := heap s;
                this := set_startTime now (set_construction true (this s)) |}).
  assert (Hs1 : isBlocklistFilterSetup s1 = false)
    by (unfold s1; rewrite isBlocklistFilterSetup_frame by reflexivity; exact Hs).
  split; [unfold buildState; rewrite Hs1; reflexivity|].
  intros now' net param. split.
  - intros Hfresh. apply RethinkModule_waiter; [exact Hs1 | reflexivity | exact Hfresh].
  - intros Hstale.
    rewrite (RethinkModule_builder now' net param s1 Hs1 (or_intror Hstale)).
    rewrite initBlocklistConstruction_spec. cbn zeta.
    do 3 eexists. split; reflexivity.
Qed.

End SyncConstructionFacts.

(** X12, witness: the artifacts of the example network, built at once. *)
Lemma sync_construction_loads_witness :
  isBlocklistFilterSetup
    (fst (initBlocklistFilterConstruction Example.builtProperties 4
            (Some (ArrayBuffer [Byte.x01])) (Some (ArrayBuffer [Byte.x02]))
            (Some (@JsonValue Example.artifacts "{}")) {| nodecount := 5; tdparts := -1 |} (fst initial)))
  = true.
Proof.
  apply (sync_construction_loads Example.builtProperties 4
           (Some (ArrayBuffer [Byte.x01])) (Some (ArrayBuffer [Byte.x02]))
           (Some (@JsonValue Example.artifacts "{}")) {| nodecount := 5; tdparts := -1 |} (fst initial) tt tt).
  reflexivity.
Defined.

(** X13, witness: the file tags are missing; a call at 20 then waits. *)
Lemma sync_construction_throws_witness :
  isBlocklistUnderConstruction
    (this (fst (initBlocklistFilterConstruction Example.builtProperties 4
                  (Some (ArrayBuffer [Byte.x01])) (Some (ArrayBuffer [Byte.x02]))
                  None {| nodecount := 5; tdparts := -1 |} (fst initial))))
  = true.
Proof.
  apply (sync_construction_throws Example.builtProperties 4
           (Some (ArrayBuffer [Byte.x01])) (Some (ArrayBuffer [Byte.x02]))
           None {| nodecount := 5; tdparts := -1 |} (fst initial)
           (mkError "cannot build")).
  reflexivity.
Defined.

(** ** What a turn leaves alone *)

Section FrameFacts.
Context `{FilterRepository}.

(** X15. No turn of the event loop moves the wrapper to another filter
    object or touches any other object of the heap; the start time
    changes only in a call that starts a build, and becomes the time of
    that call; the stored artifacts change only when a builder resumes;
    and a waiter, when it resumes, changes nothing at all. *)
Theorem step_frame (sys sys' : System) (ev : Event) (o : Observation) :
  step sys ev = Some (sys', o) ->
  blocklistFilter (this (fst sys')) = blocklistFilter (this (fst sys))
  /\ (forall a, a <> blocklistFilter (this (fst sys)) ->
        heap (fst sys') !! a = heap (fst sys) !! a)
  /\ (startTime (this (fst sys')) <> startTime (this (fst sys)) ->
      exists now net param,
        ev = Call now net param /\ startTime (this (fst sys')) = now
        /\ isBlocklistUnderConstruction (this (fst sys')) = true)
  /\ ((td (this (fst sys')), rd (this (fst sys')), ft (this (fst sys')))
      <> (td (this (fst sys)), rd (this (fst sys)), ft (this (fst sys))) ->
      exists i config downloads,
        ev = Settle i /\ snd sys !! i = Some (AwaitDownloads config downloads))
  /\ (forall i param totalWaitms,
        ev = Settle i -> snd sys !! i = Some (AwaitSleep param totalWaitms) ->
        fst sys' = fst sys).
Proof.
  destruct sys as [s tasks]. cbn [fst snd]. intros Hstep.
  destruct ev as [now net param | i]; cbn [step] in Hstep.
  - unfold RethinkModule in Hstep. destruct (isBlocklistFilterSetup s).
    + injection Hstep as <- <-. cbn [fst].
      repeat split; try congruence; try discriminate.
    + destruct (_ || _).
      * rewrite initBlocklistConstruction_spec in Hstep. cbn zeta in Hstep.
        injection Hstep as <- <-. cbn [fst heap this].
        split; [reflexivity|]. split; [reflexivity|]. split.
        { intros _. exists now, net, param. repeat split. }
        split; [intros Hne; exfalso; apply Hne; reflexivity | discriminate].
      * assert (Hsame : fst sys' = s)
          by (destruct (waitLoop param 0 s); injection Hstep as <- <-; reflexivity).
        rewrite Hsame. repeat split; try congruence; try discriminate.
  - destruct (tasks !! i) as [k|] eqn:Hi; [|discriminate].
    destruct k as [config downloads | param totalWaitms].
    + cbn [resume] in Hstep.
      destruct (resumed_cases config (outcome downloads))
        as [[e Hfail] | (dl & t & frozen & Hok)].
      * destruct (resumed_failure config _ e s Hfail) as (w & Hres & Ha & _ & Ht & _).
        rewrite Hres in Hstep. injection Hstep as <- <-. cbn [fst heap this].
        split; [exact Ha|]. split; [reflexivity|].
        split; [intros Hne; contradiction|].
        split; [intros _; eauto|].
        intros i0 p0 t0 [= <-] Hi0. rewrite Hi in Hi0. discriminate.
      * destruct (resumed_success config _ dl t frozen s Hok) as (w & Hres & Ha & _ & Ht & _).
        rewrite Hres in Hstep. injection Hstep as <- <-. cbn [fst heap this].
        split; [exact Ha|]. split.
        { intros a Hne. unfold loadFilter. apply lookup_insert_ne. congruence. }
        split; [intros Hne; contradiction|].
        split; [intros _; eauto|].
        intros i0 p0 t0 [= <-] Hi0. rewrite Hi in Hi0. discriminate.
    + cbn [resume] in Hstep.
      assert (Hsame : fst sys' = s)
        by (destruct (waitLoop param (totalWaitms + waitms) s);
            injection Hstep as <- <-; reflexivity).
      rewrite Hsame. repeat split; try congruence; try discriminate.
Qed.

Lemma step_recordKept (sys sys' : System) (ev : Event) (o : Observation) :
  step sys ev = Some (sys', o) -> recordKept (fst sys) -> recordKept (fst sys').
Proof.
  destruct sys as [s tasks]. unfold recordKept. cbn [fst]. intros Hstep Hrec.
  destruct ev as [now net param | i]; cbn [step] in Hstep.
  - unfold RethinkModule in Hstep. destruct (isBlocklistFilterSetup s).
    + injection Hstep as <- <-. exact Hrec.
    + destruct (_ || _).
      * rewrite initBlocklistConstruction_spec in Hstep. cbn zeta in Hstep.
        injection Hstep as <- <-. exact Hrec.
      * destruct (waitLoop param 0 s); injection Hstep as <- <-; exact Hrec.
  - destruct (tasks !! i) as [k|]; [|discriminate].
    destruct k as [config downloads | param totalWaitms].
    + destruct (resume_builder_cases config downloads s)
        as (s' & r & Hres & _ & _ & _ & [(e & _ & _ & Hfrom & _) | (_ & _ & Hfrom & Hstack)]);
        rewrite Hres in Hstep; injection Hstep as <- <-; cbn [fst].
      * right. exact Hfrom.
      * rewrite Hfrom, Hstack. exact Hrec.
    + cbn [resume] in Hstep.
      destruct (waitLoop param (totalWaitms + waitms) s); injection Hstep as <- <-; exact Hrec.
Qed.

(** X16. Through every run from a new wrapper, the failure on record is
    either none at all, both fields empty, or has the origin
    [initBlocklistConstruction]; so the envelope of a waiter whose budget
    has run out names [blocklistWrapper.js] as origin with the timeout
    message as stack, or names [initBlocklistConstruction]. *)
Theorem recorded_origin (evs : list Event) (sys : System) (os : list Observation) :
  run initial evs = Some (sys, os) ->
  ((exceptionFrom (this (fst sys)) = "" /\ exceptionStack (this (fst sys)) = "")
   \/ exceptionFrom (this (fst sys)) = "initBlocklistConstruction")
  /\ forall t,
       (Response.exceptionFrom (timeoutResponse t (fst sys)) = "blocklistWrapper.js"
        /\ Response.exceptionStack (timeoutResponse t (fst sys))
           = "blocklist-filter timeout " +:+ toString t)
       \/ Response.exceptionFrom (timeoutResponse t (fst sys))
          = "initBlocklistConstruction".
Proof.
  intros Hrun.
  assert (Hrec : recordKept (fst sys)).
  { assert (Hgen : forall evs (sys0 sys1 : System) os1,
              recordKept (fst sys0) -> run sys0 evs = Some (sys1, os1) ->
              recordKept (fst sys1)).
    { clear. intros evs. induction evs as [|ev evs IH]; intros sys0 sys1 os1 Hk; cbn [run].
      - intros [= <- <-]. exact Hk.
      - destruct (step sys0 ev) as [[sysm o]|] eqn:Hstep; [|discriminate].
        destruct (run sysm evs) as [[sysn osn]|] eqn:Hrun; [|discriminate].
        intros [= <- <-]. eapply IH; [|exact Hrun].
        eapply step_recordKept; eassumption. }
    apply (Hgen evs initial sys os); [|exact Hrun]. left. split; reflexivity. }
  split; [exact Hrec|].
  intros t. unfold timeoutResponse. cbn [Response.exceptionFrom Response.exceptionStack].
  destruct Hrec as [[-> ->] | ->]; [left; split; reflexivity | right; reflexivity].
Qed.

End FrameFacts.

(** X15, witness: a waiter of the example run wakes up. *)
Lemma step_frame_witness :
  fst (Example.after [Call 0 Example.netUp Example.request;
                      Call 5 Example.netUp Example.request; Settle 1%nat])
  = fst (Example.after [Call 0 Example.netUp Example.request;
                        Call 5 Example.netUp Example.request]).
Proof.
  apply (step_frame
           (Example.after [Call 0 Example.netUp Example.request;
                           Call 5 Example.netUp Example.request])
           (Example.after [Call 0 Example.netUp Example.request;
                           Call 5 Example.netUp Example.request; Settle 1%nat])
           (Settle 1%nat) {| requests := []; returned := None |})
    with (i := 1%nat) (param := Example.request) (totalWaitms := 0).
  - vm_compute. reflexivity.
  - reflexivity.
  - vm_compute. reflexivity.
Defined.

(** X16, witness: after the failed build of the example. *)
Lemma recorded_origin_witness :
  (exceptionFrom (this (fst Example.failedThenBuilding)) = ""
   /\ exceptionStack (this (fst Example.failedThenBuilding)) = "")
  \/ exceptionFrom (this (fst Example.failedThenBuilding)) = "initBlocklistConstruction".
Proof.
  apply (recorded_origin
           [Call 0 Example.netBroken Example.request; Settle 0%nat;
            Call 1 Example.netUp Example.request]
           Example.failedThenBuilding
           (Example.observed [Call 0 Example.netBroken Example.request; Settle 0%nat;
                              Call 1 Example.netUp Example.request])).
  apply run_example. vm_compute. discriminate.
Defined.
